(** * bioloid3, [bioloid/rp2.c]: half-duplex direction switch of the RP2040 UART

    [write_packet] touches the outside world only through volatile loads and
    stores on the UART register block, and it may spin for ever in its poll
    loop.  The routine is therefore embedded as an interaction tree over the
    events "load a register", "store a register" and "nop"; a device model
    answers the events, and a fuelled executor runs the tree against a
    device while logging every access in program order. *)

From Stdlib Require Import ZArith List Lia Bool.
From ITree Require Import ITree Eq.Shallow.
Import ListNotations.
Import ITreeNotations.

Local Open Scope Z_scope.
Local Open Scope itree_scope.

(** ** 32-bit unsigned arithmetic of the C source *)

Definition wrap32 (z : Z) : Z := z mod 2 ^ 32.

Definition is_u32 (z : Z) : Prop := 0 <= z < 2 ^ 32.

(** [a | b], [a & b] and [~a] at type [uint32_t]. *)
Definition or32 (a b : Z) : Z := wrap32 (Z.lor a b).
Definition and32 (a b : Z) : Z := wrap32 (Z.land a b).
Definition not32 (a : Z) : Z := wrap32 (Z.lnot a).

(** ** The [#define]s of rp2.c *)

Definition UART0_BASE : Z := 0x40034000.

Definition UARTCR : Z := 0x30.
Definition UARTCR_RXE : Z := Z.shiftl 1 9.
Definition UARTCR_TXE : Z := Z.shiftl 1 8.

Definition UARTFR : Z := 0x18.
Definition UARTFR_TXFE : Z := Z.shiftl 1 7.
Definition UARTFR_TXFF : Z := Z.shiftl 1 5.
Definition UARTFR_BUSY : Z := Z.shiftl 1 3.

(** ** Events of the routine *)

Variant mmioE : Type -> Type :=
| Load (addr : Z) : mmioE Z
| Store (addr : Z) (v : Z) : mmioE unit
| Nop : mmioE unit.

(** Byte address of [base[i]] for [base : volatile uint32_t*]. *)
Definition index (base i : Z) : Z := base + 4 * i.

(** ** The routine *)

(** One turn of [while (1) { fr = base[UARTFR / 4]; if (...) break; }]:
    [inr tt] is [break], [inl tt] goes round again. *)
Definition poll_body (base : Z) (_ : unit) : itree mmioE (unit + unit) :=
  fr <- ITree.trigger (Load (index base (UARTFR / 4)));;
  if and32 fr UARTFR_TXFF =? 0 then Ret (inr tt) else Ret (inl tt).

(** [void write_packet(volatile uint32_t* base, uint8_t* buf, size_t len)],
    statement by statement; [asm("nop")] is the event [Nop], and [ITree.iter]
    puts one silent step on the way back to the head of the loop.  Pointers
    and [size_t] are addresses and numbers in [Z]. *)
Definition write_packet (base buf len : Z) : itree mmioE unit :=
  cr <- ITree.trigger (Load (index base (UARTCR / 4)));;
  let cr := or32 cr UARTCR_RXE in
  let cr := and32 cr (not32 UARTCR_TXE) in
  ITree.trigger (Store (index base (UARTCR / 4)) cr);;
  ITree.trigger Nop;;
  ITree.iter (poll_body base) tt;;
  ITree.trigger Nop;;
  cr <- ITree.trigger (Load (index base (UARTCR / 4)));;
  let cr := or32 cr UARTCR_TXE in
  let cr := and32 cr (not32 UARTCR_RXE) in
  ITree.trigger (Store (index base (UARTCR / 4)) cr).

(** The two halves of the body that the statements name: the loop of lines
    23-28 and what follows it (nop, read, modify, write). *)
Definition poll_loop (base : Z) : itree mmioE unit :=
  ITree.iter (poll_body base) tt.

Definition switch_to_tx (base : Z) : itree mmioE unit :=
  ITree.trigger Nop;;
  cr <- ITree.trigger (Load (index base (UARTCR / 4)));;
  let cr := or32 cr UARTCR_TXE in
  let cr := and32 cr (not32 UARTCR_RXE) in
  ITree.trigger (Store (index base (UARTCR / 4)) cr).

(** ** Running the routine against a device *)

(** What the bus sees, in program order. *)
Inductive access : Type :=
| Rd (addr v : Z)
| Wr (addr v : Z)
| Fence.

Inductive outcome (S R : Type) : Type :=
| Returned (r : R) (s : S) (tr : list access) (left : nat)
| Spinning (s : S) (tr : list access).

Arguments Returned {S R} r s tr left.
Arguments Spinning {S R} s tr.

Section Exec.

(** A device is a state with an answer to loads and a reaction to stores. *)
Context {S : Type}.
Variable dev_load : S -> Z -> Z * S.
Variable dev_store : S -> Z -> Z -> S.

Definition handle {T : Type} (e : mmioE T) (s : S) : T * S * access :=
  match e in mmioE T0 return T0 * S * access with
  | Load a => let '(v, s') := dev_load s a in (v, s', Rd a v)
  | Store a v => (tt, dev_store s a v, Wr a v)
  | Nop => (tt, s, Fence)
  end.

(** Every event and every silent step costs one unit of fuel; reaching the
    end of the routine costs nothing. *)
Fixpoint exec {R : Type} (fuel : nat) (t : itree mmioE R) (s : S)
  (tr : list access) : outcome S R :=
  match observe t with
  | RetF r => Returned r s tr fuel
  | TauF t' =>
      match fuel with
      | O => Spinning s tr
      | Datatypes.S n => exec n t' s tr
      end
  | VisF e k =>
      match fuel with
      | O => Spinning s tr
      | Datatypes.S n =>
          let '(v, s', a) := handle e s in exec n (k v) s' (tr ++ [a])
      end
  end.

End Exec.

(** ** Vocabulary of the statements *)

(** The two values the routine writes, as functions of the value it read. *)
Definition rx_mode (cr : Z) : Z := and32 (or32 cr UARTCR_RXE) (not32 UARTCR_TXE).
Definition tx_mode (cr : Z) : Z := and32 (or32 cr UARTCR_TXE) (not32 UARTCR_RXE).

(** The exit test of the poll loop. *)
Definition fifo_has_room (fr : Z) : bool := and32 fr UARTFR_TXFF =? 0.

Definition all_full (frs : list Z) : Prop :=
  Forall (fun fr => fifo_has_room fr = false) frs.

Definition cr_addr (base : Z) : Z := base + 0x30.
Definition fr_addr (base : Z) : Z := base + 0x18.

Definition prologue (base v : Z) : list access :=
  [Rd (cr_addr base) v; Wr (cr_addr base) (rx_mode v); Fence].

Definition polling (base : Z) (frs : list Z) : list access :=
  map (Rd (fr_addr base)) frs.

Definition epilogue (base fr c : Z) : list access :=
  [Rd (fr_addr base) fr; Fence; Rd (cr_addr base) c; Wr (cr_addr base) (tx_mode c)].

(** The log of a call that returns: the poll loop saw [frs] (all full) and
    then [fr] (room), and the second read of the control register gave [c]. *)
Definition complete_trace (base v : Z) (frs : list Z) (fr c : Z) : list access :=
  prologue base v ++ polling base frs ++ epilogue base fr c.

Definition trace_of {S R : Type} (o : outcome S R) : list access :=
  match o with
  | Returned _ _ tr _ => tr
  | Spinning _ tr => tr
  end.

Definition has_returned {S R : Type} (o : outcome S R) : bool :=
  match o with
  | Returned _ _ _ _ => true
  | Spinning _ _ => false
  end.

Definition is_write (a : access) : bool :=
  match a with Wr _ _ => true | _ => false end.

Definition is_read_at (addr : Z) (a : access) : bool :=
  match a with Rd x _ => x =? addr | _ => false end.

Definition writes (tr : list access) : list access := filter is_write tr.

Definition flag_reads (base : Z) (tr : list access) : list access :=
  filter (is_read_at (fr_addr base)) tr.

(** What the routine may put on the bus: loads of the two registers, and
    stores to the control register that do not enable both directions. *)
Definition on_the_bus (base : Z) (a : access) : Prop :=
  match a with
  | Rd x _ => x = cr_addr base \/ x = fr_addr base
  | Wr x w => x = cr_addr base /\ Z.testbit w 9 && Z.testbit w 8 = false
  | Fence => True
  end.

(** Two runs agree: same log, same progress, and devices still related. *)
Definition same_outcome {S1 S2 R : Type} (rel : S1 -> S2 -> Prop)
  (o1 : outcome S1 R) (o2 : outcome S2 R) : Prop :=
  match o1, o2 with
  | Returned r1 s1 tr1 n1, Returned r2 s2 tr2 n2 =>
      r1 = r2 /\ rel s1 s2 /\ tr1 = tr2 /\ n1 = n2
  | Spinning s1 tr1, Spinning s2 tr2 => rel s1 s2 /\ tr1 = tr2
  | _, _ => False
  end.

Definition state_of {S R : Type} (o : outcome S R) : S :=
  match o with
  | Returned _ s _ _ => s
  | Spinning s _ => s
  end.

(** ** Register blocks with memory *)

(** The control register is a storage cell with content [cr_of s]: a load
    answers it, a store replaces it, and loads of either register leave it
    as it is. *)
Definition control_cell {S : Type} (dev_load : S -> Z -> Z * S)
  (dev_store : S -> Z -> Z -> S) (base : Z) (cr_of : S -> Z) : Prop :=
  (forall s, fst (dev_load s (cr_addr base)) = cr_of s) /\
  (forall s a, a = cr_addr base \/ a = fr_addr base ->
               cr_of (snd (dev_load s a)) = cr_of s) /\
  (forall s v, cr_of (dev_store s (cr_addr base) v) = v).

(** The flag register follows a script: [flags_of s k] is its answer to the
    [k]-th read from now.  A read uses up one answer; accesses to the control
    register use up none. *)
Definition flag_script {S : Type} (dev_load : S -> Z -> Z * S)
  (dev_store : S -> Z -> Z -> S) (base : Z) (flags_of : S -> nat -> Z) : Prop :=
  (forall s, fst (dev_load s (fr_addr base)) = flags_of s 0%nat) /\
  (forall s k, flags_of (snd (dev_load s (fr_addr base))) k =
               flags_of s (Datatypes.S k)) /\
  (forall s k, flags_of (snd (dev_load s (cr_addr base))) k = flags_of s k) /\
  (forall s v k, flags_of (dev_store s (cr_addr base) v) k = flags_of s k).

(** ** A mock register block *)

(** A control register that keeps what was stored, a flag register that
    plays back [mock_fr], and a count of the flag reads so far. *)
Record mock : Type := Mock {
  mock_cr : Z;
  mock_fr : nat -> Z;
  mock_polls : nat
}.

Definition mock_load (base : Z) (m : mock) (a : Z) : Z * mock :=
  if a =? base + UARTCR then (mock_cr m, m)
  else if a =? base + UARTFR then
    (mock_fr m (mock_polls m),
     Mock (mock_cr m) (mock_fr m) (Datatypes.S (mock_polls m)))
  else (0, m).

Definition mock_store (base : Z) (m : mock) (a v : Z) : mock :=
  if a =? base + UARTCR then Mock v (mock_fr m) (mock_polls m) else m.

Definition mock_flags (m : mock) (k : nat) : Z :=
  mock_fr m (mock_polls m + k).

(** A call on a mock that sits at the address of UART0. *)
Definition run_mock (fuel : nat) (m : mock) (buf len : Z) : outcome mock unit :=
  exec (mock_load UART0_BASE) (mock_store UART0_BASE) fuel
    (write_packet UART0_BASE buf len) m [].

(** Flag scripts: full for the first [n] reads and empty afterwards; full
    for ever. *)
Definition drains_after (n : nat) (k : nat) : Z :=
  if (k <? n)%nat then UARTFR_TXFF else UARTFR_TXFE.

Definition never_drains (_ : nat) : Z := UARTFR_TXFF.

(** A mock whose control register holds 0x301 (both directions and bit 0
    set) and whose FIFO has room at the fourth read of the flag register. *)
Definition mock0 : mock := Mock 0x301 (drains_after 3) 0.

Definition jammed0 : mock := Mock 0x301 never_drains 0.

(** A payload somewhere in SRAM. *)
Definition buf0 : Z := 0x20000100.
Definition len0 : Z := 6.

(** What a complete call on [mock0] leaves behind. *)
Definition mock0_final : mock := Mock 0x101 (drains_after 3) 4.

Definition mock0_log : list access :=
  [Rd 0x40034030 0x301; Wr 0x40034030 0x201; Fence;
   Rd 0x40034018 0x20; Rd 0x40034018 0x20; Rd 0x40034018 0x20;
   Rd 0x40034018 0x80; Fence;
   Rd 0x40034030 0x201; Wr 0x40034030 0x101].

(** The mocks whose FIFO never drains. *)
Definition jammed (m : mock) : Prop := mock_fr m = never_drains.

(** A register block whose control register is not a plain cell: the
    hardware flips bit 0 of it each time the flag register is read.  The
    state is the control register and the number of bytes still queued. *)
Definition drift_load (base : Z) (s : Z * nat) (a : Z) : Z * (Z * nat) :=
  if a =? base + UARTCR then (fst s, s)
  else if a =? base + UARTFR then
    match snd s with
    | O => (UARTFR_TXFE, (Z.lxor (fst s) 1, O))
    | Datatypes.S n => (UARTFR_TXFF, (Z.lxor (fst s) 1, n))
    end
  else (0, s).

Definition drift_store (base : Z) (s : Z * nat) (a v : Z) : Z * nat :=
  if a =? base + UARTCR then (v, snd s) else s.

(** A complete call on the drifting block, started with 0x301 in the control
    register and two bytes queued: the second read of the control register
    gives 0x200, not the 0x201 stored in step 1. *)
Definition drift_log : list access :=
  [Rd 0x40034030 0x301; Wr 0x40034030 0x201; Fence;
   Rd 0x40034018 0x20; Rd 0x40034018 0x20; Rd 0x40034018 0x80; Fence;
   Rd 0x40034030 0x200; Wr 0x40034030 0x100].

(** ** A caller, and more vocabulary for logs *)

(** Two packets sent back to back, as a caller of [write_packet] does it. *)
Definition two_packets (base buf1 len1 buf2 len2 : Z) : itree mmioE unit :=
  write_packet base buf1 len1;;
  write_packet base buf2 len2.

(** An outcome whose log is put after [tr0]. *)
Definition with_prefix {S R : Type} (tr0 : list access) (o : outcome S R)
  : outcome S R :=
  match o with
  | Returned r s tr n => Returned r s (tr0 ++ tr) n
  | Spinning s tr => Spinning s (tr0 ++ tr)
  end.

Definition is_fence (a : access) : bool :=
  match a with Fence => true | _ => false end.

Definition fences (tr : list access) : list access := filter is_fence tr.

Definition cr_reads (base : Z) (tr : list access) : list access :=
  filter (is_read_at (cr_addr base)) tr.

(** A log in which every value read from the flag register is cut down to
    what the routine looks at, [fr & UARTFR_TXFF]. *)
Definition mask_flag (base : Z) (a : access) : access :=
  match a with
  | Rd x v => if x =? fr_addr base then Rd x (and32 v UARTFR_TXFF) else a
  | _ => a
  end.

Definition mask_flags (base : Z) (tr : list access) : list access :=
  map (mask_flag base) tr.

(** Two runs are equally far and their logs differ at most in the other
    bits of the flag values. *)
Definition same_progress {S1 S2 R : Type} (rel : S1 -> S2 -> Prop) (base : Z)
  (o1 : outcome S1 R) (o2 : outcome S2 R) : Prop :=
  match o1, o2 with
  | Returned r1 s1 tr1 n1, Returned r2 s2 tr2 n2 =>
      r1 = r2 /\ rel s1 s2 /\
      mask_flags base tr1 = mask_flags base tr2 /\ n1 = n2
  | Spinning s1 tr1, Spinning s2 tr2 =>
      rel s1 s2 /\ mask_flags base tr1 = mask_flags base tr2
  | _, _ => False
  end.

(** A flag script that is full and busy for three reads and then reports
    nothing at all: it differs from [drains_after 3] in bits 3 and 7 only. *)
Definition busy_then_idle (k : nat) : Z :=
  if (k <? 3)%nat then Z.lor UARTFR_TXFF UARTFR_BUSY else 0.

(** Mocks that differ in those bits of their flag scripts only. *)
Definition alike (m1 m2 : mock) : Prop :=
  mock_cr m1 = mock_cr m2 /\ mock_polls m1 = mock_polls m2 /\
  mock_fr m1 = drains_after 3 /\ mock_fr m2 = busy_then_idle.

Definition mock1 : mock := Mock 0x301 busy_then_idle 0.

(** The log of two calls on [mock0]: the second call finds the FIFO empty. *)
Definition mock0_log2 : list access :=
  mock0_log ++
  [Rd 0x40034030 0x101; Wr 0x40034030 0x201; Fence;
   Rd 0x40034018 0x80; Fence;
   Rd 0x40034030 0x201; Wr 0x40034030 0x101].

(** * Stepping equations of the executor *)

Section ExecFacts.

Context {S : Type}.
Variable dev_load : S -> Z -> Z * S.
Variable dev_store : S -> Z -> Z -> S.

Local Abbreviation exec := (exec dev_load dev_store).
Local Abbreviation handle := (handle dev_load dev_store).

Lemma exec_unfold {R} (t : itree mmioE R) n s tr :
  exec n t s tr =
  match observe t with
  | RetF r => Returned r s tr n
  | TauF t' =>
      match n with
      | O => Spinning s tr
      | Datatypes.S n' => exec n' t' s tr
      end
  | VisF e k =>
      match n with
      | O => Spinning s tr
      | Datatypes.S n' =>
          let '(v, s', a) := handle e s in exec n' (k v) s' (tr ++ [a])
      end
  end.
Proof. destruct n; reflexivity. Qed.

Lemma exec_observe {R} (t u : itree mmioE R) n s tr :
  observe t = observe u -> exec n t s tr = exec n u s tr.
Proof.
  intros E. rewrite (exec_unfold t), (exec_unfold u), E. reflexivity.
Qed.

Lemma exec_ret {R} (r : R) n s tr : exec n (Ret r) s tr = Returned r s tr n.
Proof. destruct n; reflexivity. Qed.

Lemma exec_tau {R} (t : itree mmioE R) n s tr :
  exec (Datatypes.S n) (Tau t) s tr = exec n t s tr.
Proof. reflexivity. Qed.

Lemma exec_trigger_0 {T} (e : mmioE T) s tr :
  exec 0 (ITree.trigger e) s tr = Spinning s tr.
Proof. reflexivity. Qed.

Lemma exec_trigger {T} (e : mmioE T) n s tr :
  exec (Datatypes.S n) (ITree.trigger e) s tr =
  let '(v, s', a) := handle e s in Returned v s' (tr ++ [a]) n.
Proof.
  simpl. destruct (handle e s) as [[v s'] a]. apply exec_ret.
Qed.

Lemma exec_bind {R U} (t : itree mmioE R) (k : R -> itree mmioE U) n :
  forall s tr,
    exec n (ITree.bind t k) s tr =
    match exec n t s tr with
    | Returned r s' tr' n' => exec n' (k r) s' tr'
    | Spinning s' tr' => Spinning s' tr'
    end.
Proof.
  revert t. induction n as [|n IH]; intros t s tr;
    rewrite (exec_unfold (ITree.bind t k)), (exec_unfold t), observe_bind;
    destruct (observe t) as [r|t'|X e h]; cbn [observe _observe].
  - rewrite (exec_unfold (k r)). reflexivity.
  - reflexivity.
  - reflexivity.
  - rewrite (exec_unfold (k r)). reflexivity.
  - apply IH.
  - destruct (handle e s) as [[v s'] a]. apply IH.
Qed.

Lemma exec_iter {R I} (body : I -> itree mmioE (I + R)) (i : I) n s tr :
  exec n (ITree.iter body i) s tr =
  exec n (ITree.bind (body i)
            (fun lr => match lr with
                       | inl l => Tau (ITree.iter body l)
                       | inr r => Ret r
                       end)) s tr.
Proof. apply exec_observe. reflexivity. Qed.

(** The log only grows. *)
Lemma exec_extends {R} n :
  forall (t : itree mmioE R) s tr,
    exists tr', trace_of (exec n t s tr) = tr ++ tr'.
Proof.
  induction n as [|n IH]; intros t s tr; rewrite exec_unfold;
    destruct (observe t) as [r|t'|X e h]; cbn [trace_of];
    try (exists []; rewrite app_nil_r; reflexivity).
  - apply IH.
  - destruct (handle e s) as [[v s'] a].
    destruct (IH (h v) s' (tr ++ [a])) as [tr' E].
    exists (a :: tr'). rewrite E, <- app_assoc. reflexivity.
Qed.

End ExecFacts.

(** * Bit algebra of the two masks *)

Lemma index_UARTCR base : index base (UARTCR / 4) = cr_addr base.
Proof. unfold index, cr_addr. change (UARTCR / 4) with 12. lia. Qed.

Lemma index_UARTFR base : index base (UARTFR / 4) = fr_addr base.
Proof. unfold index, fr_addr. change (UARTFR / 4) with 6. lia. Qed.

Lemma cr_addr_neq_fr_addr base : cr_addr base <> fr_addr base.
Proof. unfold cr_addr, fr_addr. lia. Qed.

Lemma wrap32_testbit z i :
  Z.testbit (wrap32 z) i = (i <? 32) && Z.testbit z i.
Proof. unfold wrap32. apply Z.testbit_mod_pow2. lia. Qed.

Lemma wrap32_is_u32 z : is_u32 (wrap32 z).
Proof. unfold is_u32, wrap32. apply Z.mod_pos_bound. lia. Qed.

Lemma wrap32_u32 z : is_u32 z -> wrap32 z = z.
Proof. unfold is_u32, wrap32. intros H. apply Z.mod_small. exact H. Qed.

Lemma u32_testbit_high z i : is_u32 z -> 32 <= i -> Z.testbit z i = false.
Proof.
  intros H Hi. rewrite <- (wrap32_u32 z H), wrap32_testbit.
  replace (i <? 32) with false by (symmetry; apply Z.ltb_ge; exact Hi).
  reflexivity.
Qed.

Lemma flag_testbit k i : 0 <= k -> Z.testbit (Z.shiftl 1 k) i = (i =? k).
Proof.
  intros Hk. rewrite Z.shiftl_1_l, Z.pow2_bits_eqb by exact Hk.
  apply Z.eqb_sym.
Qed.

Lemma set_clear_testbit v set clr i :
  0 <= set -> 0 <= clr ->
  Z.testbit (and32 (or32 v (Z.shiftl 1 set)) (not32 (Z.shiftl 1 clr))) i =
  (i <? 32) && (Z.testbit v i || (i =? set)) && negb (i =? clr).
Proof.
  intros Hs Hc. destruct (Z.ltb_spec i 0) as [Hneg|Hpos].
  - rewrite !Z.testbit_neg_r by exact Hneg.
    replace (i =? set) with false by (symmetry; apply Z.eqb_neq; lia).
    destruct (i <? 32); reflexivity.
  - unfold and32, or32, not32.
    rewrite wrap32_testbit, Z.land_spec, !wrap32_testbit, Z.lor_spec.
    rewrite Z.lnot_spec by exact Hpos.
    rewrite !flag_testbit by assumption.
    destruct (i <? 32), (Z.testbit v i), (i =? set), (i =? clr); reflexivity.
Qed.

Lemma rx_mode_testbit v i :
  Z.testbit (rx_mode v) i = (i <? 32) && (Z.testbit v i || (i =? 9)) && negb (i =? 8).
Proof. apply set_clear_testbit; lia. Qed.

Lemma tx_mode_testbit v i :
  Z.testbit (tx_mode v) i = (i <? 32) && (Z.testbit v i || (i =? 8)) && negb (i =? 9).
Proof. apply set_clear_testbit; lia. Qed.

Lemma rx_mode_other_bits v i :
  is_u32 v -> i <> 9 -> i <> 8 -> Z.testbit (rx_mode v) i = Z.testbit v i.
Proof.
  intros Hv H9 H8. rewrite rx_mode_testbit.
  replace (i =? 9) with false by (symmetry; apply Z.eqb_neq; exact H9).
  replace (i =? 8) with false by (symmetry; apply Z.eqb_neq; exact H8).
  rewrite orb_false_r, andb_true_r.
  destruct (Z.ltb_spec i 32) as [Hlo|Hhi]; [reflexivity|].
  symmetry. apply u32_testbit_high; assumption.
Qed.

Lemma tx_mode_other_bits c i :
  is_u32 c -> i <> 8 -> i <> 9 -> Z.testbit (tx_mode c) i = Z.testbit c i.
Proof.
  intros Hc H8 H9. rewrite tx_mode_testbit.
  replace (i =? 9) with false by (symmetry; apply Z.eqb_neq; exact H9).
  replace (i =? 8) with false by (symmetry; apply Z.eqb_neq; exact H8).
  rewrite orb_false_r, andb_true_r.
  destruct (Z.ltb_spec i 32) as [Hlo|Hhi]; [reflexivity|].
  symmetry. apply u32_testbit_high; assumption.
Qed.

Lemma testbit_0x300 i : 0 <= i -> Z.testbit 0x300 i = (i =? 8) || (i =? 9).
Proof.
  intros Hi. change 0x300 with (Z.lor (Z.shiftl 1 8) (Z.shiftl 1 9)).
  rewrite Z.lor_spec, !flag_testbit by lia. reflexivity.
Qed.

(** Two words that agree off bits 8 and 9 agree under the mask [~0x300]. *)
Lemma land_lnot_0x300 a b :
  (forall i, i <> 8 -> i <> 9 -> Z.testbit a i = Z.testbit b i) ->
  Z.land a (Z.lnot 0x300) = Z.land b (Z.lnot 0x300).
Proof.
  intros H. apply Z.bits_inj'. intros i Hi.
  rewrite !Z.land_spec, Z.lnot_spec, testbit_0x300 by exact Hi.
  destruct (Z.eqb_spec i 8) as [->|H8]; [rewrite !andb_false_r; reflexivity|].
  destruct (Z.eqb_spec i 9) as [->|H9]; [rewrite !andb_false_r; reflexivity|].
  rewrite (H i H8 H9). reflexivity.
Qed.

Lemma rx_mode_is_u32 v : is_u32 (rx_mode v).
Proof. apply wrap32_is_u32. Qed.

Lemma tx_mode_is_u32 v : is_u32 (tx_mode v).
Proof. apply wrap32_is_u32. Qed.

Lemma fifo_has_room_bit5 fr : fifo_has_room fr = negb (Z.testbit fr 5).
Proof.
  unfold fifo_has_room.
  assert (E : and32 fr UARTFR_TXFF = if Z.testbit fr 5 then 32 else 0).
  { apply Z.bits_inj'. intros i Hi. unfold and32, UARTFR_TXFF.
    rewrite wrap32_testbit, Z.land_spec, flag_testbit by lia.
    destruct (Z.eqb_spec i 5) as [->|Hne].
    - destruct (Z.testbit fr 5); reflexivity.
    - rewrite andb_false_r, andb_false_r.
      destruct (Z.testbit fr 5).
      + change 32 with (Z.shiftl 1 5). rewrite flag_testbit by lia.
        symmetry. apply Z.eqb_neq. exact Hne.
      + symmetry. apply Z.bits_0. }
  rewrite E. destruct (Z.testbit fr 5); reflexivity.
Qed.

(** * The shape of every log *)

(** Sort an access found in a complete log into its slot (the lemma
    [complete_trace_nth] below), dropping the slots whose kind or address
    does not fit. *)
Ltac slot nth_lemma base H :=
  apply nth_lemma in H;
  destruct H as [[? H]|[[? H]|[[? H]|[[? [? [? H]]]|[[? H]|[[? H]|[[? H]|[? H]]]]]]]];
  try discriminate H;
  try (exfalso; apply (cr_addr_neq_fr_addr base); congruence).

Section Shape.

Context {S : Type}.
Variable dev_load : S -> Z -> Z * S.
Variable dev_store : S -> Z -> Z -> S.
Variable base : Z.

Local Abbreviation exec := (exec dev_load dev_store).

(** One turn of the loop, by cases on the fuel and on the flag value. *)
Lemma exec_poll_loop_0 s tr : exec 0 (poll_loop base) s tr = Spinning s tr.
Proof. reflexivity. Qed.

Lemma exec_poll_loop_S n s tr :
  exec (Datatypes.S n) (poll_loop base) s tr =
  let '(fr, s') := dev_load s (fr_addr base) in
  let tr' := tr ++ [Rd (fr_addr base) fr] in
  if fifo_has_room fr then Returned tt s' tr' n
  else match n with
       | O => Spinning s' tr'
       | Datatypes.S n' => exec n' (poll_loop base) s' tr'
       end.
Proof.
  unfold poll_loop. rewrite exec_iter. unfold poll_body.
  rewrite !exec_bind, exec_trigger. cbn [handle].
  rewrite index_UARTFR.
  destruct (dev_load s (fr_addr base)) as [fr s'].
  fold (fifo_has_room fr). destruct (fifo_has_room fr).
  - rewrite !exec_ret. reflexivity.
  - rewrite exec_ret. destruct n; reflexivity.
Qed.

(** The loop only reads the flag register; it leaves on the first value
    with room, and two units of fuel go into every full one. *)
Lemma exec_poll_loop_log n :
  forall s tr, exists frs, all_full frs /\
    match exec n (poll_loop base) s tr with
    | Returned _ _ tr' n' =>
        exists fr, fifo_has_room fr = true /\
          tr' = tr ++ polling base frs ++ [Rd (fr_addr base) fr] /\
          n = (n' + 2 * length frs + 1)%nat
    | Spinning _ tr' =>
        tr' = tr ++ polling base frs /\ (n <= 2 * length frs)%nat
    end.
Proof.
  induction n as [n IH] using lt_wf_ind. intros s tr.
  destruct n as [|n].
  - exists []. split; [constructor|].
    rewrite exec_poll_loop_0. cbn. rewrite app_nil_r. split; [reflexivity|lia].
  - rewrite exec_poll_loop_S.
    destruct (dev_load s (fr_addr base)) as [fr s'].
    cbv zeta. destruct (fifo_has_room fr) eqn:Hroom.
    + exists []. split; [constructor|].
      exists fr. cbn. repeat split; [exact Hroom|lia].
    + destruct n as [|n].
      * exists [fr]. split; [repeat constructor; exact Hroom|].
        cbn. split; [reflexivity|lia].
      * destruct (IH n ltac:(lia) s' (tr ++ [Rd (fr_addr base) fr]))
          as [frs [Hfull Hrun]].
        exists (fr :: frs). split; [constructor; assumption|].
        destruct (exec n (poll_loop base) s' (tr ++ [Rd (fr_addr base) fr]))
          as [[] s'' tr' n'|s'' tr'].
        -- destruct Hrun as [fr' [Hroom' [-> ->]]].
           exists fr'. split; [exact Hroom'|].
           cbn [polling map length]. rewrite <- app_assoc.
           split; [reflexivity|lia].
        -- destruct Hrun as [-> Hle].
           cbn [polling map length]. rewrite <- app_assoc.
           split; [reflexivity|lia].
Qed.

Lemma exec_switch_to_tx n s tr :
  exec n (switch_to_tx base) s tr =
  match n with
  | O => Spinning s tr
  | 1%nat => Spinning s (tr ++ [Fence])
  | Datatypes.S (Datatypes.S n2) =>
      let '(c, s1) := dev_load s (cr_addr base) in
      match n2 with
      | O => Spinning s1 (tr ++ [Fence; Rd (cr_addr base) c])
      | Datatypes.S n3 =>
          Returned tt (dev_store s1 (cr_addr base) (tx_mode c))
            (tr ++ [Fence; Rd (cr_addr base) c; Wr (cr_addr base) (tx_mode c)]) n3
      end
  end.
Proof.
  unfold switch_to_tx. rewrite exec_bind.
  destruct n as [|n]; [reflexivity|].
  rewrite exec_trigger. cbn [handle]. rewrite exec_bind.
  destruct n as [|n]; [reflexivity|].
  rewrite exec_trigger. cbn [handle]. rewrite index_UARTCR.
  destruct (dev_load s (cr_addr base)) as [c s1]. cbv zeta.
  destruct n as [|n].
  - rewrite exec_trigger_0, <- app_assoc. reflexivity.
  - rewrite exec_trigger. cbn [handle]. rewrite <- !app_assoc. reflexivity.
Qed.

Lemma exec_write_packet n s buf len :
  exec n (write_packet base buf len) s [] =
  match n with
  | O => Spinning s []
  | Datatypes.S n1 =>
      let '(v, s1) := dev_load s (cr_addr base) in
      match n1 with
      | O => Spinning s1 [Rd (cr_addr base) v]
      | Datatypes.S n2 =>
          let s2 := dev_store s1 (cr_addr base) (rx_mode v) in
          match n2 with
          | O => Spinning s2 [Rd (cr_addr base) v; Wr (cr_addr base) (rx_mode v)]
          | Datatypes.S n3 =>
              match exec n3 (poll_loop base) s2 (prologue base v) with
              | Returned _ s3 tr n4 => exec n4 (switch_to_tx base) s3 tr
              | Spinning s3 tr => Spinning s3 tr
              end
          end
      end
  end.
Proof.
  unfold write_packet. rewrite exec_bind.
  destruct n as [|n]; [reflexivity|].
  rewrite exec_trigger. cbn [handle]. rewrite index_UARTCR.
  destruct (dev_load s (cr_addr base)) as [v s1]. cbv zeta.
  rewrite exec_bind.
  destruct n as [|n]; [reflexivity|].
  rewrite exec_trigger. cbn [handle]. rewrite exec_bind.
  destruct n as [|n]; [reflexivity|].
  rewrite exec_trigger. cbn [handle]. rewrite exec_bind.
  reflexivity.
Qed.

Lemma complete_trace_length v frs fr c :
  length (complete_trace base v frs fr c) = (length frs + 7)%nat.
Proof.
  unfold complete_trace, polling. rewrite !length_app, length_map. cbn. lia.
Qed.

Lemma firstn_complete_trace v frs fr c j :
  firstn (3 + (length frs + j)) (complete_trace base v frs fr c) =
  prologue base v ++ polling base frs ++ firstn j (epilogue base fr c).
Proof.
  unfold complete_trace.
  change 3%nat with (length (prologue base v)). rewrite firstn_app_2.
  rewrite <- (length_map (Rd (fr_addr base)) frs). fold (polling base frs).
  rewrite firstn_app_2. reflexivity.
Qed.

(** Every log of the routine, whatever the device and the fuel, is the log
    of a complete call or a proper initial segment of one. *)
Lemma write_packet_log n s buf len :
  exists frs fr c,
    all_full frs /\ fifo_has_room fr = true /\
    let full := complete_trace base (fst (dev_load s (cr_addr base))) frs fr c in
    match exec n (write_packet base buf len) s [] with
    | Returned _ s' tr n' =>
        tr = full /\ n = (n' + 2 * length frs + 7)%nat /\
        exists s3, c = fst (dev_load s3 (cr_addr base)) /\
          s' = dev_store (snd (dev_load s3 (cr_addr base))) (cr_addr base) (tx_mode c)
    | Spinning _ tr => exists k, (k < length full)%nat /\ tr = firstn k full
    end.
Proof.
  assert (Hroom0 : fifo_has_room 0 = true) by reflexivity.
  rewrite exec_write_packet.
  destruct n as [|n].
  { exists [], 0, 0. split; [constructor|split; [exact Hroom0|]].
    exists 0%nat. cbn. split; [lia|reflexivity]. }
  destruct (dev_load s (cr_addr base)) as [v s1]. cbn [fst].
  destruct n as [|n].
  { exists [], 0, 0. split; [constructor|split; [exact Hroom0|]].
    exists 1%nat. cbn. split; [lia|reflexivity]. }
  cbv zeta. destruct n as [|n].
  { exists [], 0, 0. split; [constructor|split; [exact Hroom0|]].
    exists 2%nat. cbn. split; [lia|reflexivity]. }
  destruct (exec_poll_loop_log n (dev_store s1 (cr_addr base) (rx_mode v))
              (prologue base v)) as [frs [Hfull Hrun]].
  destruct (exec n (poll_loop base) _ _) as [[] s3 tr n4|s3 tr].
  - destruct Hrun as [fr [Hroom [-> ->]]].
    exists frs, fr. rewrite exec_switch_to_tx.
    destruct n4 as [|[|n4]].
    + exists 0. split; [exact Hfull|split; [exact Hroom|]].
      exists (3 + (length frs + 1))%nat.
      rewrite complete_trace_length, firstn_complete_trace.
      split; [lia|reflexivity].
    + exists 0. split; [exact Hfull|split; [exact Hroom|]].
      exists (3 + (length frs + 2))%nat.
      rewrite complete_trace_length, firstn_complete_trace, <- !app_assoc.
      split; [lia|reflexivity].
    + destruct (dev_load s3 (cr_addr base)) as [c s4] eqn:Hload.
      exists c. split; [exact Hfull|split; [exact Hroom|]].
      destruct n4 as [|n4].
      * exists (3 + (length frs + 3))%nat.
        rewrite complete_trace_length, firstn_complete_trace, <- !app_assoc.
        split; [lia|reflexivity].
      * unfold complete_trace. rewrite <- !app_assoc.
        split; [reflexivity|split; [lia|]].
        exists s3. rewrite Hload. split; reflexivity.
  - destruct Hrun as [-> _].
    exists frs, 0, 0. split; [exact Hfull|split; [exact Hroom0|]].
    exists (3 + (length frs + 0))%nat.
    rewrite complete_trace_length, firstn_complete_trace.
    cbn [firstn]. rewrite app_nil_r. split; [lia|reflexivity].
Qed.

(** The same, with returning and running out of fuel told apart only by
    how much of the complete log has been produced. *)
Lemma write_packet_log_prefix n s buf len :
  exists frs fr c k,
    all_full frs /\ fifo_has_room fr = true /\
    let full := complete_trace base (fst (dev_load s (cr_addr base))) frs fr c in
    let o := exec n (write_packet base buf len) s [] in
    trace_of o = firstn k full /\
    (k <= length full)%nat /\
    (has_returned o = true <-> k = length full).
Proof.
  destruct (write_packet_log n s buf len) as [frs [fr [c [Hfull [Hroom H]]]]].
  exists frs, fr, c. cbv zeta in *.
  destruct (exec n (write_packet base buf len) s []) as [[] s' tr n'|s' tr];
    cbn [trace_of has_returned].
  - destruct H as [-> _]. eexists. split; [exact Hfull|split; [exact Hroom|]].
    rewrite firstn_all. split; [reflexivity|]. split; [lia|]. tauto.
  - destruct H as [k [Hk ->]]. exists k.
    split; [exact Hfull|split; [exact Hroom|]].
    split; [reflexivity|]. split; [lia|].
    split; [discriminate|lia].
Qed.

(** Which access sits in which slot of a complete log. *)
Lemma complete_trace_nth v frs fr c i a :
  nth_error (complete_trace base v frs fr c) i = Some a ->
  (i = 0%nat /\ a = Rd (cr_addr base) v) \/
  (i = 1%nat /\ a = Wr (cr_addr base) (rx_mode v)) \/
  (i = 2%nat /\ a = Fence) \/
  ((3 <= i < 3 + length frs)%nat /\ exists x, In x frs /\ a = Rd (fr_addr base) x) \/
  (i = (3 + length frs)%nat /\ a = Rd (fr_addr base) fr) \/
  (i = (4 + length frs)%nat /\ a = Fence) \/
  (i = (5 + length frs)%nat /\ a = Rd (cr_addr base) c) \/
  (i = (6 + length frs)%nat /\ a = Wr (cr_addr base) (tx_mode c)).
Proof.
  unfold complete_trace.
  destruct i as [|[|[|i]]]; cbn [prologue app nth_error]; intros H.
  - left. split; congruence.
  - right; left. split; congruence.
  - do 2 right; left. split; congruence.
  - do 3 right.
    destruct (Nat.lt_ge_cases i (length frs)) as [Hlt|Hge].
    + left. split; [lia|].
      rewrite nth_error_app1 in H by (unfold polling; rewrite length_map; exact Hlt).
      unfold polling in H. rewrite nth_error_map in H.
      destruct (nth_error frs i) as [x|] eqn:Hx; [|discriminate].
      exists x. split; [eapply nth_error_In; exact Hx|].
      cbn in H. congruence.
    + right.
      rewrite nth_error_app2 in H by (unfold polling; rewrite length_map; exact Hge).
      unfold polling in H. rewrite length_map in H.
      destruct (i - length frs)%nat as [|[|[|[|j]]]] eqn:Hj;
        cbn [epilogue nth_error] in H.
      * left. split; [lia|congruence].
      * right; left. split; [lia|congruence].
      * do 2 right; left. split; [lia|congruence].
      * do 3 right. split; [lia|congruence].
      * destruct j; discriminate.
Qed.

Lemma nth_error_firstn_Some {A} k (l : list A) i a :
  nth_error (firstn k l) i = Some a -> (i < k)%nat /\ nth_error l i = Some a.
Proof.
  rewrite nth_error_firstn. destruct (Nat.ltb_spec i k); [tauto|discriminate].
Qed.

Lemma Forall_firstn_of {A} (P : A -> Prop) k (l : list A) :
  Forall P l -> Forall P (firstn k l).
Proof.
  intros H. revert k. induction H as [|x l Hx Hl IH]; intros [|k]; cbn;
    constructor; auto.
Qed.

Lemma rx_mode_one_direction v :
  Z.testbit (rx_mode v) 9 && Z.testbit (rx_mode v) 8 = false.
Proof.
  rewrite !rx_mode_testbit.
  destruct (Z.testbit v 9), (Z.testbit v 8); reflexivity.
Qed.

Lemma tx_mode_one_direction c :
  Z.testbit (tx_mode c) 9 && Z.testbit (tx_mode c) 8 = false.
Proof.
  rewrite !tx_mode_testbit.
  destruct (Z.testbit c 9), (Z.testbit c 8); reflexivity.
Qed.

Lemma complete_trace_on_the_bus v frs fr c :
  Forall (on_the_bus base) (complete_trace base v frs fr c).
Proof.
  unfold complete_trace. rewrite !Forall_app.
  split; [|split].
  - unfold prologue.
    constructor; [cbn; auto|].
    constructor; [split; [reflexivity|apply rx_mode_one_direction]|].
    constructor; [exact I|constructor].
  - unfold polling. apply Forall_map, Forall_forall. intros x _. cbn. auto.
  - unfold epilogue.
    constructor; [cbn; auto|].
    constructor; [exact I|].
    constructor; [cbn; auto|].
    constructor; [split; [reflexivity|apply tx_mode_one_direction]|constructor].
Qed.

Lemma writes_polling frs : writes (polling base frs) = [].
Proof. induction frs as [|x l IH]; [reflexivity|exact IH]. Qed.

Lemma writes_complete_trace v frs fr c :
  writes (complete_trace base v frs fr c) =
  [Wr (cr_addr base) (rx_mode v); Wr (cr_addr base) (tx_mode c)].
Proof.
  unfold complete_trace, writes. rewrite !filter_app.
  fold (writes (polling base frs)). rewrite writes_polling. reflexivity.
Qed.

(** C1. For every initial 32-bit value [V] of the control register, the
    first two accesses of [write_packet] are the read of the register at
    offset 0x30 and the write back of a value [W] with bit 9 (receive
    enable) set, bit 8 (transmit enable) clear and every other bit as in
    [V]. *)
Theorem C1_step1_bit_discipline (V : Z) (s : S) (buf len : Z) (fuel : nat) :
  is_u32 V ->
  fst (dev_load s (cr_addr base)) = V ->
  (2 <= fuel)%nat ->
  exists W,
    firstn 2 (trace_of (exec fuel (write_packet base buf len) s [])) =
      [Rd (cr_addr base) V; Wr (cr_addr base) W] /\
    Z.testbit W 9 = true /\
    Z.testbit W 8 = false /\
    forall i, i <> 9 -> i <> 8 -> Z.testbit W i = Z.testbit V i.
Proof.
  intros HV Hload Hfuel. exists (rx_mode V). split; [|split; [|split]].
  - rewrite exec_write_packet.
    destruct fuel as [|[|fuel]]; [lia|lia|].
    destruct (dev_load s (cr_addr base)) as [v s1]. cbn [fst] in Hload. subst v.
    cbv zeta. destruct fuel as [|fuel]; [reflexivity|].
    pose proof (exec_extends dev_load dev_store fuel (poll_loop base)
                  (dev_store s1 (cr_addr base) (rx_mode V)) (prologue base V))
      as [tr1 E1].
    destruct (exec fuel (poll_loop base) _ _) as [[] s3 tr n4|s3 tr];
      cbn [trace_of] in E1; subst tr; [|reflexivity].
    destruct (exec_extends dev_load dev_store n4 (switch_to_tx base) s3
                (prologue base V ++ tr1)) as [tr2 E2].
    rewrite E2. reflexivity.
  - rewrite rx_mode_testbit. destruct (Z.testbit V 9); reflexivity.
  - rewrite rx_mode_testbit. destruct (Z.testbit V 8); reflexivity.
  - intros i H9 H8. apply rx_mode_other_bits; assumption.
Qed.

(** C5. Whatever the device answers and however far the call gets, no value
    that [write_packet] stores has bit 9 (receive enable) and bit 8
    (transmit enable) set together, and every store goes to the control
    register. *)
Theorem C5_never_both_directions (s : S) (buf len : Z) (fuel : nat) (a w : Z) :
  In (Wr a w) (trace_of (exec fuel (write_packet base buf len) s [])) ->
  a = cr_addr base /\ Z.testbit w 9 && Z.testbit w 8 = false.
Proof.
  destruct (write_packet_log_prefix fuel s buf len)
    as [frs [fr [c [k [_ [_ [E _]]]]]]].
  cbv zeta in E. rewrite E. intros Hin.
  pose proof (Forall_firstn_of (on_the_bus base) k _
                (complete_trace_on_the_bus
                   (fst (dev_load s (cr_addr base))) frs fr c)) as Hall.
  rewrite Forall_forall in Hall. exact (Hall _ Hin).
Qed.

(** C9. A call that returns has made exactly two stores, both to the
    control register at offset 0x30; and at any point of any call every
    load is from offset 0x30 or 0x18 and every store is to offset 0x30, so
    that the flag register is never written and no other register is
    touched. *)
Theorem C9_only_two_registers (s : S) (buf len : Z) (fuel : nat) :
  let o := exec fuel (write_packet base buf len) s [] in
  (has_returned o = true ->
   exists w1 w2,
     writes (trace_of o) = [Wr (base + 0x30) w1; Wr (base + 0x30) w2]) /\
  (forall a v, In (Rd a v) (trace_of o) -> a = base + 0x30 \/ a = base + 0x18) /\
  (forall a v, In (Wr a v) (trace_of o) -> a = base + 0x30).
Proof.
  cbv zeta.
  destruct (write_packet_log_prefix fuel s buf len)
    as [frs [fr [c [k [_ [_ [E [_ Hret]]]]]]]].
  cbv zeta in E, Hret.
  pose proof (Forall_firstn_of (on_the_bus base) k _
                (complete_trace_on_the_bus
                   (fst (dev_load s (cr_addr base))) frs fr c)) as Hall.
  rewrite <- E, Forall_forall in Hall.
  split; [|split].
  - intros Hr. apply Hret in Hr. subst k. rewrite firstn_all in E.
    rewrite E, writes_complete_trace. eauto.
  - intros a v Hin. exact (Hall _ Hin).
  - intros a v Hin. exact (proj1 (Hall _ Hin)).
Qed.

Lemma rx_mode_bits v :
  Z.testbit (rx_mode v) 9 = true /\ Z.testbit (rx_mode v) 8 = false.
Proof.
  rewrite !rx_mode_testbit.
  destruct (Z.testbit v 9), (Z.testbit v 8); split; reflexivity.
Qed.

Lemma tx_mode_bits c :
  Z.testbit (tx_mode c) 8 = true /\ Z.testbit (tx_mode c) 9 = false.
Proof.
  rewrite !tx_mode_testbit.
  destruct (Z.testbit c 9), (Z.testbit c 8); split; reflexivity.
Qed.

(** C6. In every log of [write_packet]: a read of the flag register is
    preceded by the store of the receive-mode value, which is the second
    access of the call, and by the nop after it; a store of a value with the
    transmit-enable bit set comes after every read of the flag register; and
    when the call returns that store is the last access of the log, two
    places after the second nop. *)
Theorem C6_ordering (s : S) (buf len : Z) (fuel : nat) :
  let o := exec fuel (write_packet base buf len) s [] in
  let tr := trace_of o in
  (forall i fr,
      nth_error tr i = Some (Rd (fr_addr base) fr) ->
      (2 < i)%nat /\
      nth_error tr 2 = Some Fence /\
      exists w, nth_error tr 1 = Some (Wr (cr_addr base) w) /\
                Z.testbit w 9 = true /\ Z.testbit w 8 = false) /\
  (forall i j fr w,
      nth_error tr i = Some (Rd (fr_addr base) fr) ->
      nth_error tr j = Some (Wr (cr_addr base) w) ->
      Z.testbit w 8 = true ->
      (i < j)%nat) /\
  (has_returned o = true ->
   nth_error tr (length tr - 3) = Some Fence /\
   exists w, nth_error tr (length tr - 1) = Some (Wr (cr_addr base) w) /\
             Z.testbit w 8 = true /\ Z.testbit w 9 = false).
Proof.
  cbv zeta.
  destruct (write_packet_log_prefix fuel s buf len)
    as [frs [fr0 [c [k [_ [_ [E [Hk Hret]]]]]]]].
  cbv zeta in E, Hk, Hret. rewrite E.
  set (v := fst (dev_load s (cr_addr base))) in *.
  split; [|split].
  - intros i fr H. apply nth_error_firstn_Some in H. destruct H as [Hik H].
    assert (Hi : (3 <= i)%nat) by (slot complete_trace_nth base H; lia).
    split; [lia|]. split.
    + rewrite nth_error_firstn.
      destruct (Nat.ltb_spec 2 k); [reflexivity|lia].
    + exists (rx_mode v). split; [|apply rx_mode_bits].
      rewrite nth_error_firstn.
      destruct (Nat.ltb_spec 1 k); [reflexivity|lia].
  - intros i j fr w Hi Hj Hw.
    apply nth_error_firstn_Some in Hi. destruct Hi as [_ Hi].
    apply nth_error_firstn_Some in Hj. destruct Hj as [_ Hj].
    assert (Hile : (i <= 3 + length frs)%nat) by (slot complete_trace_nth base Hi; lia).
    slot complete_trace_nth base Hj; [|lia].
    exfalso. injection Hj as ->.
    destruct (rx_mode_bits v) as [_ H8]. congruence.
  - intros Hr. apply Hret in Hr. subst k. rewrite firstn_all.
    assert (Hend : forall j, (j <= 4)%nat ->
               nth_error (complete_trace base v frs fr0 c)
                 (length (complete_trace base v frs fr0 c) - (4 - j)) =
               nth_error (epilogue base fr0 c) j).
    { intros j Hj. rewrite complete_trace_length. unfold complete_trace.
      rewrite app_assoc, nth_error_app2
        by (unfold polling; rewrite length_app, length_map;
            cbn [prologue length]; lia).
      unfold polling. rewrite length_app, length_map. cbn [prologue length].
      f_equal. lia. }
    split.
    + exact (Hend 1%nat ltac:(lia)).
    + exists (tx_mode c).
      split; [exact (Hend 3%nat ltac:(lia))|apply tx_mode_bits].
Qed.

(** C2. When [write_packet] returns, its log ends with the last read of
    the flag register, whose value has bit 5 (transmit FIFO full) clear, a
    nop, a read of the control register and the store of a value with bit
    8 (transmit enable) set and bit 9 (receive enable) clear; the device is
    left as that store leaves it, so that a control register that keeps what
    is stored in it ends with bit 8 set and bit 9 clear. *)
Theorem C2_returns_in_transmit_mode (s s' : S) (buf len : Z) (fuel left : nat)
  (r : unit) (tr : list access) :
  exec fuel (write_packet base buf len) s [] = Returned r s' tr left ->
  exists pre fr c w s4,
    tr = pre ++ [Rd (fr_addr base) fr; Fence;
                 Rd (cr_addr base) c; Wr (cr_addr base) w] /\
    Z.testbit fr 5 = false /\
    Z.testbit w 8 = true /\
    Z.testbit w 9 = false /\
    s' = dev_store s4 (cr_addr base) w /\
    (forall cr_of,
        control_cell dev_load dev_store base cr_of ->
        Z.testbit (cr_of s') 8 = true /\ Z.testbit (cr_of s') 9 = false).
Proof.
  intros Hrun.
  destruct (write_packet_log fuel s buf len) as [frs [fr [c [_ [Hroom H]]]]].
  cbv zeta in H. rewrite Hrun in H. destruct H as [-> [_ [s3 [_ ->]]]].
  exists (prologue base (fst (dev_load s (cr_addr base))) ++ polling base frs),
    fr, c, (tx_mode c), (snd (dev_load s3 (cr_addr base))).
  split; [|split; [|split; [|split; [|split]]]].
  - unfold complete_trace, epilogue. rewrite <- app_assoc. reflexivity.
  - rewrite fifo_has_room_bit5 in Hroom. apply negb_true_iff. exact Hroom.
  - apply tx_mode_bits.
  - apply tx_mode_bits.
  - reflexivity.
  - intros cr_of [_ [_ Hstore]]. rewrite Hstore. apply tx_mode_bits.
Qed.

Lemma tx_mode_u32 c :
  is_u32 c -> tx_mode c = Z.land (Z.lor c 0x100) (Z.lnot 0x200).
Proof.
  intros Hc. apply Z.bits_inj'. intros i Hi.
  rewrite tx_mode_testbit, Z.land_spec, Z.lor_spec, Z.lnot_spec by exact Hi.
  change 0x100 with (Z.shiftl 1 8). change 0x200 with (Z.shiftl 1 9).
  rewrite !flag_testbit by lia.
  destruct (Z.ltb_spec i 32) as [Hlo|Hhi]; [reflexivity|].
  rewrite (u32_testbit_high c i Hc Hhi).
  replace (i =? 8) with false by (symmetry; apply Z.eqb_neq; lia).
  reflexivity.
Qed.

(** C10. When [write_packet] returns, the value of its last store is
    computed from the answer [c] that the device gives to a load of the
    control register made after the poll loop has ended, whatever was
    stored in step 1: the store is [(c | bit 8) & ~bit 9] in 32 bits, it
    keeps every bit of [c] other than bits 8 and 9, and it follows that
    load immediately. *)
Theorem C10_final_store_from_fresh_read (s s' : S) (buf len : Z)
  (fuel left : nat) (r : unit) (tr : list access) :
  exec fuel (write_packet base buf len) s [] = Returned r s' tr left ->
  exists v frs fr s3,
    let c := fst (dev_load s3 (cr_addr base)) in
    let final := and32 (or32 c UARTCR_TXE) (not32 UARTCR_RXE) in
    tr = [Rd (cr_addr base) v; Wr (cr_addr base) (rx_mode v); Fence] ++
         polling base frs ++
         [Rd (fr_addr base) fr; Fence; Rd (cr_addr base) c; Wr (cr_addr base) final] /\
    s' = dev_store (snd (dev_load s3 (cr_addr base))) (cr_addr base) final /\
    (is_u32 c -> final = Z.land (Z.lor c 0x100) (Z.lnot 0x200)) /\
    (forall i, 0 <= i < 32 -> i <> 8 -> i <> 9 ->
               Z.testbit final i = Z.testbit c i).
Proof.
  intros Hrun.
  destruct (write_packet_log fuel s buf len) as [frs [fr [c [_ [_ H]]]]].
  cbv zeta in H. rewrite Hrun in H. destruct H as [-> [_ [s3 [-> ->]]]].
  exists (fst (dev_load s (cr_addr base))), frs, fr, s3. cbv zeta.
  fold (tx_mode (fst (dev_load s3 (cr_addr base)))).
  split; [reflexivity|split; [reflexivity|split]].
  - apply tx_mode_u32.
  - intros i Hi H8 H9. rewrite tx_mode_testbit.
    replace (i <? 32) with true by (symmetry; apply Z.ltb_lt; lia).
    replace (i =? 8) with false by (symmetry; apply Z.eqb_neq; exact H8).
    replace (i =? 9) with false by (symmetry; apply Z.eqb_neq; exact H9).
    rewrite orb_false_r, andb_true_r. reflexivity.
Qed.

End Shape.

(** * A transmit FIFO that never drains *)

Section Hang.

Context {S : Type}.
Variable dev_load : S -> Z -> Z * S.
Variable dev_store : S -> Z -> Z -> S.
Variable base : Z.

(** [inv] holds of the device states in which, and after which, every read
    of the flag register reports the FIFO full. *)
Variable inv : S -> Prop.

Hypothesis inv_load :
  forall s a,
    a = cr_addr base \/ a = fr_addr base -> inv s -> inv (snd (dev_load s a)).

Hypothesis inv_store :
  forall s v, inv s -> inv (dev_store s (cr_addr base) v).

Hypothesis inv_full :
  forall s, inv s -> Z.testbit (fst (dev_load s (fr_addr base))) 5 = true.

Local Abbreviation exec := (exec dev_load dev_store).

Lemma poll_loop_never_returns n :
  forall s tr, inv s -> has_returned (exec n (poll_loop base) s tr) = false.
Proof.
  induction n as [n IH] using lt_wf_ind. intros s tr Hs.
  destruct n as [|n]; [reflexivity|].
  rewrite exec_poll_loop_S.
  pose proof (inv_full s Hs) as Hbit.
  pose proof (inv_load s (fr_addr base) (or_intror eq_refl) Hs) as Hs'.
  destruct (dev_load s (fr_addr base)) as [fr s1]. cbn [fst snd] in Hbit, Hs'.
  cbv zeta. rewrite fifo_has_room_bit5, Hbit. cbn [negb].
  destruct n as [|n]; [reflexivity|].
  apply IH; [lia|exact Hs'].
Qed.

(** C7. If every read of the flag register reports bit 5 (transmit FIFO
    full) set, then no amount of fuel makes [write_packet] return: the log is
    the read and the receive-mode store of step 1, the nop, and then reads of
    the flag register only, more of them the more fuel there is; the second
    store to the control register never appears in it. *)
Theorem C7_hangs_when_always_full (s : S) (buf len : Z) (fuel : nat) :
  inv s ->
  let o := exec fuel (write_packet base buf len) s [] in
  has_returned o = false /\
  ((fuel < 3)%nat /\
   trace_of o = firstn fuel (prologue base (fst (dev_load s (cr_addr base)))) \/
   exists frs,
     trace_of o =
       prologue base (fst (dev_load s (cr_addr base))) ++ polling base frs /\
     (fuel <= 2 * length frs + 3)%nat) /\
  (length (writes (trace_of o)) <= 1)%nat.
Proof.
  intros Hs. cbv zeta. rewrite exec_write_packet.
  destruct fuel as [|fuel].
  { split; [reflexivity|]. split; [|cbn; lia].
    left. split; [lia|reflexivity]. }
  pose proof (inv_load s (cr_addr base) (or_introl eq_refl) Hs) as Hs1.
  destruct (dev_load s (cr_addr base)) as [v s1]. cbn [fst snd] in *.
  destruct fuel as [|fuel].
  { split; [reflexivity|]. split; [|cbn; lia].
    left. split; [lia|reflexivity]. }
  cbv zeta. destruct fuel as [|fuel].
  { split; [reflexivity|]. split; [|cbn; lia].
    left. split; [lia|reflexivity]. }
  pose proof (poll_loop_never_returns fuel
                (dev_store s1 (cr_addr base) (rx_mode v)) (prologue base v)
                (inv_store s1 (rx_mode v) Hs1)) as Hnever.
  destruct (exec_poll_loop_log dev_load dev_store base fuel
              (dev_store s1 (cr_addr base) (rx_mode v))
              (prologue base v)) as [frs [_ Hrun]].
  destruct (exec fuel (poll_loop base) _ _) as [[] s3 tr n4|s3 tr];
    [discriminate Hnever|].
  destruct Hrun as [-> Hle]. cbn [has_returned trace_of].
  split; [reflexivity|]. split.
  - right. exists frs. split; [reflexivity|lia].
  - unfold writes. rewrite filter_app.
    fold (writes (polling base frs)). rewrite writes_polling. cbn. lia.
Qed.

End Hang.

(** * Register blocks with memory *)

Section RegisterBlock.

Context {S : Type}.
Variable dev_load : S -> Z -> Z * S.
Variable dev_store : S -> Z -> Z -> S.
Variable base : Z.

Local Abbreviation exec := (exec dev_load dev_store).

Lemma flag_reads_polling frs :
  flag_reads base (polling base frs) = polling base frs.
Proof.
  unfold flag_reads, polling.
  induction frs as [|x l IH]; [reflexivity|].
  cbn [map filter is_read_at]. rewrite Z.eqb_refl, IH. reflexivity.
Qed.

Lemma flag_reads_complete_trace v frs fr c :
  length (flag_reads base (complete_trace base v frs fr c)) =
  (length frs + 1)%nat.
Proof.
  unfold complete_trace, flag_reads. rewrite !filter_app.
  fold (flag_reads base (polling base frs)). rewrite flag_reads_polling.
  cbn [prologue epilogue filter is_read_at].
  replace (cr_addr base =? fr_addr base) with false
    by (symmetry; apply Z.eqb_neq, cr_addr_neq_fr_addr).
  rewrite Z.eqb_refl, !length_app. unfold polling. rewrite length_map.
  reflexivity.
Qed.

Section Cell.

Variable cr_of : S -> Z.
Hypothesis cell : control_cell dev_load dev_store base cr_of.

(** Polling leaves the control register alone. *)
Lemma poll_loop_keeps_cr n :
  forall s tr, cr_of (state_of (exec n (poll_loop base) s tr)) = cr_of s.
Proof.
  destruct cell as [_ [Hkeep _]].
  induction n as [n IH] using lt_wf_ind. intros s tr.
  destruct n as [|n]; [reflexivity|].
  rewrite exec_poll_loop_S.
  pose proof (Hkeep s (fr_addr base) (or_intror eq_refl)) as Hs1.
  destruct (dev_load s (fr_addr base)) as [fr s1]. cbn [snd] in Hs1.
  cbv zeta. destruct (fifo_has_room fr); [exact Hs1|].
  destruct n as [|n]; [exact Hs1|].
  rewrite IH by lia. exact Hs1.
Qed.

(** The control register after a call that returned, and the log of the
    call: the second read sees what step 1 stored. *)
Lemma returned_cell fuel s buf len r s' tr left :
  exec fuel (write_packet base buf len) s [] = Returned r s' tr left ->
  cr_of s' = tx_mode (rx_mode (cr_of s)) /\
  exists frs fr,
    tr = complete_trace base (cr_of s) frs fr (rx_mode (cr_of s)).
Proof.
  destruct cell as [Hload [Hkeep Hstore]].
  rewrite exec_write_packet.
  destruct fuel as [|fuel]; [discriminate|].
  pose proof (Hload s) as Hv.
  destruct (dev_load s (cr_addr base)) as [v s1]. cbn [fst] in Hv. subst v.
  destruct fuel as [|fuel]; [discriminate|].
  cbv zeta. destruct fuel as [|fuel]; [discriminate|].
  set (s2 := dev_store s1 (cr_addr base) (rx_mode (cr_of s))).
  pose proof (poll_loop_keeps_cr fuel s2 (prologue base (cr_of s))) as Hcr.
  destruct (exec_poll_loop_log dev_load dev_store base fuel s2
              (prologue base (cr_of s))) as [frs [_ Hlog]].
  destruct (exec fuel (poll_loop base) s2 _) as [[] s3 tr3 n4|s3 tr3];
    [|discriminate].
  destruct Hlog as [fr [_ [-> _]]]. cbn [state_of] in Hcr.
  unfold s2 in Hcr. rewrite Hstore in Hcr.
  rewrite exec_switch_to_tx.
  destruct n4 as [|[|n4]]; [discriminate|discriminate|].
  pose proof (Hload s3) as Hc.
  destruct (dev_load s3 (cr_addr base)) as [c s4]. cbn [fst] in Hc.
  destruct n4 as [|n4]; [discriminate|].
  intros H. injection H as _ <- <- _.
  rewrite Hstore, Hc, Hcr. split; [reflexivity|].
  exists frs, fr. unfold complete_trace, epilogue.
  rewrite <- !app_assoc. reflexivity.
Qed.

(** C3. On a register block whose control register is a storage cell (as
    in a mock): for every 32-bit initial value [V] of the register and every
    call that returns, the final value [R] satisfies
    [R & ~0x300 = V & ~0x300], and so does every value stored during the
    call; each store writes back the value read just before it with only
    bits 8 and 9 changed. *)
Theorem C3_other_bits_never_altered (s s' : S) (buf len : Z)
  (fuel left : nat) (r : unit) (tr : list access) :
  is_u32 (cr_of s) ->
  exec fuel (write_packet base buf len) s [] = Returned r s' tr left ->
  Z.land (cr_of s') (Z.lnot 0x300) = Z.land (cr_of s) (Z.lnot 0x300) /\
  (forall a w, In (Wr a w) tr ->
               Z.land w (Z.lnot 0x300) = Z.land (cr_of s) (Z.lnot 0x300)) /\
  (forall i c w,
      nth_error tr i = Some (Rd (cr_addr base) c) ->
      nth_error tr (Datatypes.S i) = Some (Wr (cr_addr base) w) ->
      Z.land w (Z.lnot 0x300) = Z.land c (Z.lnot 0x300)).
Proof.
  intros HV Hrun.
  destruct (returned_cell _ _ _ _ _ _ _ _ Hrun) as [-> [frs [fr ->]]].
  assert (Hrx : Z.land (rx_mode (cr_of s)) (Z.lnot 0x300) =
                Z.land (cr_of s) (Z.lnot 0x300)).
  { apply land_lnot_0x300. intros i H8 H9.
    apply rx_mode_other_bits; assumption. }
  assert (Htx : Z.land (tx_mode (rx_mode (cr_of s))) (Z.lnot 0x300) =
                Z.land (rx_mode (cr_of s)) (Z.lnot 0x300)).
  { apply land_lnot_0x300. intros i H8 H9.
    apply tx_mode_other_bits; [apply rx_mode_is_u32|assumption|assumption]. }
  split; [congruence|]. split.
  - intros a w Hin.
    assert (Hw : In (Wr a w)
                   (writes (complete_trace base (cr_of s) frs fr
                              (rx_mode (cr_of s))))).
    { apply filter_In. split; [exact Hin|reflexivity]. }
    rewrite writes_complete_trace in Hw.
    destruct Hw as [Hw|[Hw|[]]]; injection Hw as _ <-; congruence.
  - intros i c w Hi Hj.
    slot (complete_trace_nth base) base Hi;
      slot (complete_trace_nth base) base Hj; try lia.
    + injection Hi as ->. injection Hj as ->. exact Hrx.
    + injection Hi as ->. injection Hj as ->. exact Htx.
Qed.

End Cell.

Section Script.

Variable flags_of : S -> nat -> Z.
Hypothesis script : flag_script dev_load dev_store base flags_of.

Lemma script_shift s n :
  map (flags_of s) (seq 0 (Datatypes.S n)) =
  flags_of s 0%nat :: map (flags_of (snd (dev_load s (fr_addr base)))) (seq 0 n).
Proof.
  destruct script as [_ [Hnext _]].
  cbn [seq map]. f_equal. rewrite <- seq_shift, map_map.
  apply map_ext. intros k. symmetry. apply Hnext.
Qed.

(** [N] full answers and then one with room: the loop returns after
    [2 * N + 1] steps, having read the flag register [N + 1] times. *)
Lemma exec_poll_loop_script N :
  forall s tr left,
    (forall k, (k < N)%nat -> Z.testbit (flags_of s k) 5 = true) ->
    Z.testbit (flags_of s N) 5 = false ->
    exists s',
      exec (2 * N + 1 + left) (poll_loop base) s tr =
      Returned tt s'
        (tr ++ polling base (map (flags_of s) (seq 0 (N + 1)))) left.
Proof.
  destruct script as [Hfr [Hnext _]].
  induction N as [|N IH]; intros s tr left Hfull Hroom.
  - cbn [Nat.mul Nat.add]. rewrite exec_poll_loop_S.
    pose proof (Hfr s) as Hv.
    destruct (dev_load s (fr_addr base)) as [fr s1]. cbn [fst] in Hv. subst fr.
    cbv zeta. rewrite fifo_has_room_bit5, Hroom. cbn [negb].
    exists s1. reflexivity.
  - replace (2 * Datatypes.S N + 1 + left)%nat
      with (Datatypes.S (Datatypes.S (2 * N + 1 + left))) by lia.
    rewrite exec_poll_loop_S.
    change (Datatypes.S N + 1)%nat with (Datatypes.S (N + 1)).
    rewrite script_shift.
    pose proof (Hfr s) as Hv. pose proof (Hnext s) as Hs1.
    destruct (dev_load s (fr_addr base)) as [fr s1]. cbn [fst snd] in *. subst fr.
    cbv zeta. rewrite fifo_has_room_bit5, (Hfull 0%nat) by lia. cbn [negb].
    destruct (IH s1 (tr ++ [Rd (fr_addr base) (flags_of s 0%nat)]) left)
      as [s' Hrun].
    + intros k Hk. rewrite Hs1. apply Hfull. lia.
    + rewrite Hs1. exact Hroom.
    + exists s'. rewrite Hrun. cbn [polling map]. rewrite <- app_assoc.
      reflexivity.
Qed.

(** C4. On a register block whose flag register follows a script (as in a
    mock), for every [N]: if the script reports bit 5 (transmit FIFO full)
    set on each of the first [N] reads and clear on the next one, then with
    enough fuel [write_packet] returns, and its log is the prologue, exactly
    [N + 1] reads of the flag register, and only then the nop, the read and
    the final store of the control register. *)
Theorem C4_poll_reads_N_plus_1 (N : nat) (s : S) (buf len : Z) (fuel : nat) :
  (forall k, (k < N)%nat -> Z.testbit (flags_of s k) 5 = true) ->
  Z.testbit (flags_of s N) 5 = false ->
  (2 * N + 7 <= fuel)%nat ->
  exists s' tr v c,
    exec fuel (write_packet base buf len) s [] =
      Returned tt s' tr (fuel - (2 * N + 7)) /\
    tr = [Rd (cr_addr base) v; Wr (cr_addr base) (rx_mode v); Fence] ++
         polling base (map (flags_of s) (seq 0 (N + 1))) ++
         [Fence; Rd (cr_addr base) c; Wr (cr_addr base) (tx_mode c)] /\
    length (flag_reads base tr) = (N + 1)%nat.
Proof.
  intros Hfull Hroom Hfuel.
  destruct script as [_ [_ [Hcr Hst]]].
  remember (fuel - (2 * N + 7))%nat as left eqn:Hleft.
  assert (Hf : fuel = Datatypes.S (Datatypes.S (Datatypes.S
                        (2 * N + 1 +
                         Datatypes.S (Datatypes.S (Datatypes.S left))))))
    by lia.
  clear Hleft Hfuel. subst fuel.
  rewrite exec_write_packet.
  pose proof (Hcr s) as Hs1.
  destruct (dev_load s (cr_addr base)) as [v s1]. cbn [snd] in Hs1. cbv zeta.
  set (s2 := dev_store s1 (cr_addr base) (rx_mode v)).
  assert (Hs2 : forall k, flags_of s2 k = flags_of s k).
  { intros k. unfold s2. rewrite Hst. apply Hs1. }
  destruct (exec_poll_loop_script N s2 (prologue base v)
              (Datatypes.S (Datatypes.S (Datatypes.S left))))
    as [s3 Hloop].
  { intros k Hk. rewrite Hs2. apply Hfull. exact Hk. }
  { rewrite Hs2. exact Hroom. }
  rewrite Hloop, exec_switch_to_tx.
  rewrite (map_ext _ _ Hs2).
  destruct (dev_load s3 (cr_addr base)) as [c s4].
  exists (dev_store s4 (cr_addr base) (tx_mode c)),
    (complete_trace base v (map (flags_of s) (seq 0 N)) (flags_of s N) c), v, c.
  assert (Eseq : map (flags_of s) (seq 0 (N + 1)) =
                 map (flags_of s) (seq 0 N) ++ [flags_of s N]).
  { rewrite seq_app, map_app. reflexivity. }
  rewrite Eseq. unfold complete_trace, polling, epilogue, prologue.
  rewrite !map_app, <- !app_assoc. split; [reflexivity|]. split; [reflexivity|].
  pose proof (flag_reads_complete_trace v (map (flags_of s) (seq 0 N))
                (flags_of s N) c) as Hcount.
  rewrite length_map, length_seq in Hcount.
  exact Hcount.
Qed.

End Script.

End RegisterBlock.

(** * Two calls that see the same register block *)

Section TwoCalls.

Context {S1 S2 : Type}.
Variable load1 : S1 -> Z -> Z * S1.
Variable store1 : S1 -> Z -> Z -> S1.
Variable load2 : S2 -> Z -> Z * S2.
Variable store2 : S2 -> Z -> Z -> S2.
Variable base : Z.

(** [rel] relates device states that answer alike on the two registers of
    the block, now and after every further access to them. *)
Variable rel : S1 -> S2 -> Prop.

Hypothesis rel_load :
  forall s1 s2 a,
    a = cr_addr base \/ a = fr_addr base ->
    rel s1 s2 ->
    fst (load1 s1 a) = fst (load2 s2 a) /\
    rel (snd (load1 s1 a)) (snd (load2 s2 a)).

Hypothesis rel_store :
  forall s1 s2 v,
    rel s1 s2 -> rel (store1 s1 (cr_addr base) v) (store2 s2 (cr_addr base) v).

Local Abbreviation exec1 := (exec load1 store1).
Local Abbreviation exec2 := (exec load2 store2).

Lemma poll_loop_same n :
  forall s1 s2 tr,
    rel s1 s2 ->
    same_outcome rel (exec1 n (poll_loop base) s1 tr)
                     (exec2 n (poll_loop base) s2 tr).
Proof.
  induction n as [n IH] using lt_wf_ind. intros s1 s2 tr Hrel.
  destruct n as [|n]; [split; [exact Hrel|reflexivity]|].
  rewrite !exec_poll_loop_S.
  destruct (rel_load s1 s2 (fr_addr base) (or_intror eq_refl) Hrel) as [Hv Hrel'].
  destruct (load1 s1 (fr_addr base)) as [fr s1'].
  destruct (load2 s2 (fr_addr base)) as [fr2 s2'].
  cbn [fst snd] in Hv, Hrel'. subst fr2. cbv zeta.
  destruct (fifo_has_room fr); [repeat split; assumption|].
  destruct n as [|n]; [split; [exact Hrel'|reflexivity]|].
  apply IH; [lia|exact Hrel'].
Qed.

Lemma switch_to_tx_same n s1 s2 tr :
  rel s1 s2 ->
  same_outcome rel (exec1 n (switch_to_tx base) s1 tr)
                   (exec2 n (switch_to_tx base) s2 tr).
Proof.
  intros Hrel. rewrite !exec_switch_to_tx.
  destruct n as [|[|n]]; [split; [exact Hrel|reflexivity]..|].
  destruct (rel_load s1 s2 (cr_addr base) (or_introl eq_refl) Hrel) as [Hv Hrel'].
  destruct (load1 s1 (cr_addr base)) as [c s1'].
  destruct (load2 s2 (cr_addr base)) as [c2 s2'].
  cbn [fst snd] in Hv, Hrel'. subst c2.
  destruct n as [|n]; [split; [exact Hrel'|reflexivity]|].
  repeat split. apply rel_store. exact Hrel'.
Qed.

(** C8. Take two calls of [write_packet] on the same register block, with
    any two payload pointers and any two lengths, on devices that answer
    the loads of the control and flag registers alike.  Then, step for
    step, both calls produce the same log of loads, stores (addresses and
    values) and nops and are equally far; indeed the payload pointer and
    the length do not occur in the routine at all. *)
Theorem C8_payload_is_ignored (s1 : S1) (s2 : S2) (buf1 len1 buf2 len2 : Z)
  (fuel : nat) :
  rel s1 s2 ->
  let o1 := exec1 fuel (write_packet base buf1 len1) s1 [] in
  let o2 := exec2 fuel (write_packet base buf2 len2) s2 [] in
  trace_of o1 = trace_of o2 /\
  has_returned o1 = has_returned o2 /\
  same_outcome rel o1 o2 /\
  write_packet base buf1 len1 = write_packet base buf2 len2.
Proof.
  intros Hrel. cbv zeta.
  assert (Hsame : same_outcome rel
                    (exec1 fuel (write_packet base buf1 len1) s1 [])
                    (exec2 fuel (write_packet base buf2 len2) s2 [])).
  { rewrite !exec_write_packet.
    destruct fuel as [|fuel]; [split; [exact Hrel|reflexivity]|].
    destruct (rel_load s1 s2 (cr_addr base) (or_introl eq_refl) Hrel) as [Hv Hrel1].
    destruct (load1 s1 (cr_addr base)) as [v s1'].
    destruct (load2 s2 (cr_addr base)) as [v2 s2'].
    cbn [fst snd] in Hv, Hrel1. subst v2.
    destruct fuel as [|fuel]; [split; [exact Hrel1|reflexivity]|].
    cbv zeta. pose proof (rel_store s1' s2' (rx_mode v) Hrel1) as Hrel2.
    destruct fuel as [|fuel]; [split; [exact Hrel2|reflexivity]|].
    pose proof (poll_loop_same fuel _ _ (prologue base v) Hrel2) as Hloop.
    destruct (exec1 fuel (poll_loop base) _ _) as [[] t1 tr1 n1|t1 tr1];
      destruct (exec2 fuel (poll_loop base) _ _) as [[] t2 tr2 n2|t2 tr2];
      cbn [same_outcome] in Hloop; try contradiction.
    - destruct Hloop as [_ [Hrel3 [<- <-]]].
      apply switch_to_tx_same. exact Hrel3.
    - exact Hloop. }
  split; [|split; [|split; [exact Hsame|reflexivity]]].
  - destruct (exec1 fuel _ s1 []), (exec2 fuel _ s2 []);
      cbn [same_outcome] in Hsame; try contradiction; cbn; tauto.
  - destruct (exec1 fuel _ s1 []), (exec2 fuel _ s2 []);
      cbn [same_outcome] in Hsame; try contradiction; reflexivity.
Qed.

End TwoCalls.

(** * The statements at concrete register blocks *)

Lemma mock_control_cell base :
  control_cell (mock_load base) (mock_store base) base mock_cr.
Proof.
  unfold control_cell, mock_load, mock_store, cr_addr, fr_addr, UARTCR, UARTFR.
  split; [|split].
  - intros m. rewrite Z.eqb_refl. reflexivity.
  - intros m a _. destruct (a =? base + 48); [reflexivity|].
    destruct (a =? base + 24); reflexivity.
  - intros m v. rewrite Z.eqb_refl. reflexivity.
Qed.

Lemma mock_flag_script base :
  flag_script (mock_load base) (mock_store base) base mock_flags.
Proof.
  assert (Hne : (base + 24 =? base + 48) = false) by (apply Z.eqb_neq; lia).
  unfold flag_script, mock_load, mock_store, mock_flags, cr_addr, fr_addr,
    UARTCR, UARTFR.
  rewrite Hne, !Z.eqb_refl. cbn [fst snd mock_fr mock_polls].
  split; [|split; [|split]].
  - intros m. rewrite Nat.add_0_r. reflexivity.
  - intros m k. f_equal. lia.
  - reflexivity.
  - reflexivity.
Qed.

Lemma run_mock0 : run_mock 13 mock0 buf0 len0 = Returned tt mock0_final mock0_log 0.
Proof. vm_compute. reflexivity. Qed.

Lemma C1_witness :
  is_u32 0x301 /\
  exists W,
    firstn 2 (trace_of (run_mock 13 mock0 buf0 len0)) =
      [Rd (cr_addr UART0_BASE) 0x301; Wr (cr_addr UART0_BASE) W] /\
    Z.testbit W 9 = true /\
    Z.testbit W 8 = false /\
    forall i, i <> 9 -> i <> 8 -> Z.testbit W i = Z.testbit 0x301 i.
Proof.
  assert (H : is_u32 0x301) by (unfold is_u32; lia).
  split; [exact H|].
  apply (C1_step1_bit_discipline (mock_load UART0_BASE) (mock_store UART0_BASE)
           UART0_BASE 0x301 mock0 buf0 len0 13 H); [reflexivity|lia].
Defined.

Lemma C2_witness :
  run_mock 13 mock0 buf0 len0 = Returned tt mock0_final mock0_log 0 /\
  (exists pre fr c w,
     mock0_log = pre ++ [Rd (fr_addr UART0_BASE) fr; Fence;
                         Rd (cr_addr UART0_BASE) c; Wr (cr_addr UART0_BASE) w] /\
     Z.testbit fr 5 = false /\
     Z.testbit w 8 = true /\
     Z.testbit w 9 = false) /\
  Z.testbit (mock_cr mock0_final) 8 = true /\
  Z.testbit (mock_cr mock0_final) 9 = false.
Proof.
  split; [exact run_mock0|].
  destruct (C2_returns_in_transmit_mode (mock_load UART0_BASE)
              (mock_store UART0_BASE) UART0_BASE
              mock0 mock0_final buf0 len0 13 0 tt mock0_log run_mock0)
    as [pre [fr [c [w [s4 [Hlog [Hfr [H8 [H9 [_ Hcell]]]]]]]]]].
  split; [exists pre, fr, c, w; repeat split; assumption|].
  exact (Hcell mock_cr (mock_control_cell UART0_BASE)).
Defined.

Lemma C3_witness :
  is_u32 (mock_cr mock0) /\
  run_mock 13 mock0 buf0 len0 = Returned tt mock0_final mock0_log 0 /\
  Z.land (mock_cr mock0_final) (Z.lnot 0x300) =
    Z.land (mock_cr mock0) (Z.lnot 0x300) /\
  (forall a w, In (Wr a w) mock0_log ->
               Z.land w (Z.lnot 0x300) = Z.land (mock_cr mock0) (Z.lnot 0x300)) /\
  (forall i c w,
      nth_error mock0_log i = Some (Rd (cr_addr UART0_BASE) c) ->
      nth_error mock0_log (Datatypes.S i) = Some (Wr (cr_addr UART0_BASE) w) ->
      Z.land w (Z.lnot 0x300) = Z.land c (Z.lnot 0x300)).
Proof.
  assert (H : is_u32 (mock_cr mock0)) by (unfold is_u32; cbn; lia).
  split; [exact H|]. split; [exact run_mock0|].
  exact (C3_other_bits_never_altered (mock_load UART0_BASE)
           (mock_store UART0_BASE) UART0_BASE mock_cr
           (mock_control_cell UART0_BASE)
           mock0 mock0_final buf0 len0 13 0 tt mock0_log H run_mock0).
Defined.

Lemma mock0_full_for_3 :
  forall k, (k < 3)%nat -> Z.testbit (mock_flags mock0 k) 5 = true.
Proof.
  intros k Hk. destruct k as [|[|[|k]]]; [reflexivity..|lia].
Qed.

Lemma C4_witness :
  exists m' tr v c,
    run_mock 13 mock0 buf0 len0 = Returned tt m' tr (13 - (2 * 3 + 7)) /\
    tr = [Rd (cr_addr UART0_BASE) v; Wr (cr_addr UART0_BASE) (rx_mode v); Fence] ++
         polling UART0_BASE (map (mock_flags mock0) (seq 0 (3 + 1))) ++
         [Fence; Rd (cr_addr UART0_BASE) c; Wr (cr_addr UART0_BASE) (tx_mode c)] /\
    length (flag_reads UART0_BASE tr) = (3 + 1)%nat.
Proof.
  apply (C4_poll_reads_N_plus_1 (mock_load UART0_BASE) (mock_store UART0_BASE)
           UART0_BASE mock_flags (mock_flag_script UART0_BASE)
           3 mock0 buf0 len0 13 mock0_full_for_3); [reflexivity|lia].
Defined.

Lemma C5_witness :
  In (Wr 0x40034030 0x201) (trace_of (run_mock 13 mock0 buf0 len0)) /\
  0x40034030 = cr_addr UART0_BASE /\
  Z.testbit 0x201 9 && Z.testbit 0x201 8 = false.
Proof.
  assert (H : In (Wr 0x40034030 0x201) (trace_of (run_mock 13 mock0 buf0 len0))).
  { rewrite run_mock0. cbn. right. left. reflexivity. }
  split; [exact H|].
  exact (C5_never_both_directions (mock_load UART0_BASE) (mock_store UART0_BASE)
           UART0_BASE mock0 buf0 len0 13 0x40034030 0x201 H).
Defined.

Lemma C6_witness :
  let tr := trace_of (run_mock 13 mock0 buf0 len0) in
  nth_error tr 4 = Some (Rd (fr_addr UART0_BASE) 0x20) /\
  nth_error tr 9 = Some (Wr (cr_addr UART0_BASE) 0x101) /\
  Z.testbit 0x101 8 = true /\
  (4 < 9)%nat /\
  ((2 < 4)%nat /\
   nth_error tr 2 = Some Fence /\
   exists w, nth_error tr 1 = Some (Wr (cr_addr UART0_BASE) w) /\
             Z.testbit w 9 = true /\ Z.testbit w 8 = false) /\
  (nth_error tr (length tr - 3) = Some Fence /\
   exists w, nth_error tr (length tr - 1) = Some (Wr (cr_addr UART0_BASE) w) /\
             Z.testbit w 8 = true /\ Z.testbit w 9 = false).
Proof.
  cbv zeta.
  pose proof (C6_ordering (mock_load UART0_BASE) (mock_store UART0_BASE)
                UART0_BASE mock0 buf0 len0 13)
    as [Hbefore [Hafter Hlast]].
  assert (Hi : nth_error (trace_of (run_mock 13 mock0 buf0 len0)) 4 =
               Some (Rd (fr_addr UART0_BASE) 0x20))
    by (rewrite run_mock0; reflexivity).
  assert (Hj : nth_error (trace_of (run_mock 13 mock0 buf0 len0)) 9 =
               Some (Wr (cr_addr UART0_BASE) 0x101))
    by (rewrite run_mock0; reflexivity).
  assert (Hr : has_returned (run_mock 13 mock0 buf0 len0) = true)
    by (rewrite run_mock0; reflexivity).
  split; [exact Hi|]. split; [exact Hj|]. split; [reflexivity|].
  split; [exact (Hafter 4%nat 9%nat 0x20 0x101 Hi Hj eq_refl)|].
  split; [exact (Hbefore 4%nat 0x20 Hi)|exact (Hlast Hr)].
Defined.

Lemma jammed_load :
  forall m a,
    a = cr_addr UART0_BASE \/ a = fr_addr UART0_BASE ->
    jammed m -> jammed (snd (mock_load UART0_BASE m a)).
Proof.
  intros m a _ Hf. unfold mock_load.
  destruct (a =? UART0_BASE + UARTCR); [exact Hf|].
  destruct (a =? UART0_BASE + UARTFR); exact Hf.
Qed.

Lemma jammed_store :
  forall m v, jammed m -> jammed (mock_store UART0_BASE m (cr_addr UART0_BASE) v).
Proof. intros m v Hf. exact Hf. Qed.

Lemma jammed_full :
  forall m, jammed m ->
            Z.testbit (fst (mock_load UART0_BASE m (fr_addr UART0_BASE))) 5 = true.
Proof.
  intros m Hf. unfold jammed in Hf.
  change (Z.testbit (mock_fr m (mock_polls m)) 5 = true).
  rewrite Hf. reflexivity.
Qed.

Lemma C7_witness :
  jammed jammed0 /\
  let o := exec (mock_load UART0_BASE) (mock_store UART0_BASE) 1000
             (write_packet UART0_BASE buf0 len0) jammed0 [] in
  has_returned o = false /\
  ((1000 < 3)%nat /\
   trace_of o =
     firstn 1000 (prologue UART0_BASE
                    (fst (mock_load UART0_BASE jammed0 (cr_addr UART0_BASE)))) \/
   exists frs,
     trace_of o =
       prologue UART0_BASE
         (fst (mock_load UART0_BASE jammed0 (cr_addr UART0_BASE))) ++
       polling UART0_BASE frs /\
     (1000 <= 2 * length frs + 3)%nat) /\
  (length (writes (trace_of o)) <= 1)%nat.
Proof.
  assert (H : jammed jammed0) by reflexivity.
  split; [exact H|].
  exact (C7_hangs_when_always_full (mock_load UART0_BASE) (mock_store UART0_BASE)
           UART0_BASE jammed jammed_load jammed_store jammed_full
           jammed0 buf0 len0 1000 H).
Defined.

Lemma eq_mock_load :
  forall m1 m2 a,
    a = cr_addr UART0_BASE \/ a = fr_addr UART0_BASE ->
    m1 = m2 ->
    fst (mock_load UART0_BASE m1 a) = fst (mock_load UART0_BASE m2 a) /\
    snd (mock_load UART0_BASE m1 a) = snd (mock_load UART0_BASE m2 a).
Proof. intros m1 m2 a _ ->. split; reflexivity. Qed.

Lemma eq_mock_store :
  forall m1 m2 v,
    m1 = m2 ->
    mock_store UART0_BASE m1 (cr_addr UART0_BASE) v =
    mock_store UART0_BASE m2 (cr_addr UART0_BASE) v.
Proof. intros m1 m2 v ->. reflexivity. Qed.

Lemma C8_witness :
  let o1 := run_mock 13 mock0 buf0 len0 in
  let o2 := run_mock 13 mock0 0 0 in
  trace_of o1 = trace_of o2 /\
  has_returned o1 = has_returned o2 /\
  same_outcome eq o1 o2 /\
  write_packet UART0_BASE buf0 len0 = write_packet UART0_BASE 0 0.
Proof.
  exact (C8_payload_is_ignored (mock_load UART0_BASE) (mock_store UART0_BASE)
           (mock_load UART0_BASE) (mock_store UART0_BASE)
           UART0_BASE eq eq_mock_load eq_mock_store mock0 mock0
           buf0 len0 0 0 13 eq_refl).
Defined.

Lemma C9_witness :
  let o := run_mock 13 mock0 buf0 len0 in
  has_returned o = true /\
  In (Rd 0x40034018 0x80) (trace_of o) /\
  In (Wr 0x40034030 0x101) (trace_of o) /\
  (exists w1 w2,
     writes (trace_of o) = [Wr (UART0_BASE + 0x30) w1; Wr (UART0_BASE + 0x30) w2]) /\
  (0x40034018 = UART0_BASE + 0x30 \/ 0x40034018 = UART0_BASE + 0x18) /\
  0x40034030 = UART0_BASE + 0x30.
Proof.
  cbv zeta.
  pose proof (C9_only_two_registers (mock_load UART0_BASE)
                (mock_store UART0_BASE) UART0_BASE mock0
                buf0 len0 13) as [Htwo [Hrd Hwr]].
  assert (Hr : has_returned (run_mock 13 mock0 buf0 len0) = true)
    by (rewrite run_mock0; reflexivity).
  assert (H1 : In (Rd 0x40034018 0x80) (trace_of (run_mock 13 mock0 buf0 len0)))
    by (rewrite run_mock0; cbn; tauto).
  assert (H2 : In (Wr 0x40034030 0x101) (trace_of (run_mock 13 mock0 buf0 len0)))
    by (rewrite run_mock0; cbn; tauto).
  split; [exact Hr|]. split; [exact H1|]. split; [exact H2|].
  split; [exact (Htwo Hr)|].
  split; [exact (Hrd _ _ H1)|exact (Hwr _ _ H2)].
Defined.

Lemma run_drift :
  exec (drift_load UART0_BASE) (drift_store UART0_BASE) 20
    (write_packet UART0_BASE buf0 len0) (0x301, 2%nat) [] =
  Returned tt (0x100, 0%nat) drift_log 9.
Proof. vm_compute. reflexivity. Qed.

Lemma C10_witness :
  exec (drift_load UART0_BASE) (drift_store UART0_BASE) 20
    (write_packet UART0_BASE buf0 len0) (0x301, 2%nat) [] =
  Returned tt (0x100, 0%nat) drift_log 9 /\
  exists v frs fr s3,
    let c := fst (drift_load UART0_BASE s3 (cr_addr UART0_BASE)) in
    let final := and32 (or32 c UARTCR_TXE) (not32 UARTCR_RXE) in
    drift_log =
      [Rd (cr_addr UART0_BASE) v; Wr (cr_addr UART0_BASE) (rx_mode v); Fence] ++
      polling UART0_BASE frs ++
      [Rd (fr_addr UART0_BASE) fr; Fence;
       Rd (cr_addr UART0_BASE) c; Wr (cr_addr UART0_BASE) final] /\
    (0x100, 0%nat) =
      drift_store UART0_BASE (snd (drift_load UART0_BASE s3 (cr_addr UART0_BASE)))
        (cr_addr UART0_BASE) final /\
    (is_u32 c -> final = Z.land (Z.lor c 0x100) (Z.lnot 0x200)) /\
    (forall i, 0 <= i < 32 -> i <> 8 -> i <> 9 ->
               Z.testbit final i = Z.testbit c i).
Proof.
  split; [exact run_drift|].
  exact (C10_final_store_from_fresh_read (drift_load UART0_BASE)
           (drift_store UART0_BASE) UART0_BASE (0x301, 2%nat) (0x100, 0%nat)
           buf0 len0 20 9 tt drift_log run_drift).
Defined.

(** On the drifting block the last store, 0x100, is the value computed from
    the fresh read 0x200; the value computed from what step 1 stored would
    have been 0x101. *)
Example drift_final_store_is_not_from_step1 :
  last drift_log Fence = Wr 0x40034030 (tx_mode 0x200) /\
  tx_mode 0x200 = 0x100 /\
  tx_mode (rx_mode 0x301) = 0x101.
Proof. repeat split. Qed.

(** * Beyond the single call *)

Lemma tx_rx_idempotent v :
  tx_mode (rx_mode (tx_mode (rx_mode v))) = tx_mode (rx_mode v).
Proof.
  apply Z.bits_inj'. intros i Hi.
  rewrite !tx_mode_testbit, !rx_mode_testbit, !tx_mode_testbit, !rx_mode_testbit.
  destruct (i <? 32), (Z.testbit v i), (i =? 9), (i =? 8); reflexivity.
Qed.

Lemma tx_rx_closed_form v :
  is_u32 v -> tx_mode (rx_mode v) = Z.lor (Z.land v (Z.lnot 0x300)) 0x100.
Proof.
  intros Hv. apply Z.bits_inj'. intros i Hi.
  rewrite tx_mode_testbit, rx_mode_testbit, Z.lor_spec, Z.land_spec,
    Z.lnot_spec, testbit_0x300 by exact Hi.
  change 0x100 with (Z.shiftl 1 8). rewrite flag_testbit by lia.
  destruct (Z.ltb_spec i 32) as [Hlo|Hhi].
  - destruct (Z.testbit v i), (Z.eqb_spec i 9), (Z.eqb_spec i 8);
      try reflexivity; lia.
  - rewrite (u32_testbit_high v i Hv Hhi).
    replace (i =? 8) with false by (symmetry; apply Z.eqb_neq; lia).
    reflexivity.
Qed.

Lemma rx_tx_closed_form v :
  is_u32 v ->
  rx_mode (tx_mode (rx_mode v)) = Z.lor (Z.land v (Z.lnot 0x300)) 0x200.
Proof.
  intros Hv. apply Z.bits_inj'. intros i Hi.
  rewrite rx_mode_testbit, tx_mode_testbit, rx_mode_testbit, Z.lor_spec,
    Z.land_spec, Z.lnot_spec, testbit_0x300 by exact Hi.
  change 0x200 with (Z.shiftl 1 9). rewrite flag_testbit by lia.
  destruct (Z.ltb_spec i 32) as [Hlo|Hhi].
  - destruct (Z.testbit v i), (Z.eqb_spec i 9), (Z.eqb_spec i 8);
      try reflexivity; lia.
  - rewrite (u32_testbit_high v i Hv Hhi).
    replace (i =? 9) with false by (symmetry; apply Z.eqb_neq; lia).
    reflexivity.
Qed.

Lemma and32_TXFF fr :
  and32 fr UARTFR_TXFF = if Z.testbit fr 5 then 32 else 0.
Proof.
  apply Z.bits_inj'. intros i Hi. unfold and32, UARTFR_TXFF.
  rewrite wrap32_testbit, Z.land_spec, flag_testbit by lia.
  destruct (Z.eqb_spec i 5) as [->|Hne].
  - destruct (Z.testbit fr 5); reflexivity.
  - rewrite !andb_false_r. destruct (Z.testbit fr 5).
    + change 32 with (Z.shiftl 1 5). rewrite flag_testbit by lia.
      symmetry. apply Z.eqb_neq. exact Hne.
    + symmetry. apply Z.bits_0.
Qed.

Section Calls.

Context {S : Type}.
Variable dev_load : S -> Z -> Z * S.
Variable dev_store : S -> Z -> Z -> S.
Variable base : Z.

Local Abbreviation exec := (exec dev_load dev_store).

(** Running with a log already there only puts that log in front. *)
Lemma exec_with_prefix {R} n :
  forall (t : itree mmioE R) s tr0 tr,
    exec n t s (tr0 ++ tr) = with_prefix tr0 (exec n t s tr).
Proof.
  induction n as [|n IH]; intros t s tr0 tr;
    rewrite (exec_unfold _ _ t _ s (tr0 ++ tr)), (exec_unfold _ _ t _ s tr);
    destruct (observe t) as [r|t'|X e h]; cbn [with_prefix]; try reflexivity.
  - apply IH.
  - destruct (handle dev_load dev_store e s) as [[v s'] a].
    rewrite <- app_assoc. apply IH.
Qed.

Lemma cr_reads_polling frs : cr_reads base (polling base frs) = [].
Proof.
  unfold cr_reads, polling. induction frs as [|x l IH]; [reflexivity|].
  cbn [map filter is_read_at].
  replace (fr_addr base =? cr_addr base) with false; [exact IH|].
  symmetry. apply Z.eqb_neq. intros E. apply (cr_addr_neq_fr_addr base).
  symmetry. exact E.
Qed.

Lemma fences_polling frs : fences (polling base frs) = [].
Proof. induction frs as [|x l IH]; [reflexivity|exact IH]. Qed.

(** X3. A call that returns has read the flag register [p >= 1] times, and
    apart from these reads its log holds six accesses: two reads of the
    control register, two stores and two nops.  It has taken [2 * p + 5]
    steps. *)
Theorem X3_cost_of_a_call (s s' : S) (buf len : Z) (fuel left : nat)
  (r : unit) (tr : list access) :
  exec fuel (write_packet base buf len) s [] = Returned r s' tr left ->
  let p := length (flag_reads base tr) in
  (1 <= p)%nat /\
  length tr = (p + 6)%nat /\
  length (cr_reads base tr) = 2%nat /\
  length (writes tr) = 2%nat /\
  length (fences tr) = 2%nat /\
  fuel = (left + (2 * p + 5))%nat.
Proof.
  intros Hrun. cbv zeta.
  destruct (write_packet_log dev_load dev_store base fuel s buf len)
    as [frs [fr [c [_ [_ H]]]]].
  cbv zeta in H. rewrite Hrun in H. destruct H as [-> [-> _]].
  rewrite flag_reads_complete_trace, complete_trace_length,
    writes_complete_trace.
  split; [lia|]. split; [lia|]. split; [|split; [reflexivity|split; [|lia]]].
  - unfold complete_trace, cr_reads. rewrite !filter_app.
    fold (cr_reads base (polling base frs)). rewrite cr_reads_polling.
    cbn [prologue epilogue filter is_read_at].
    replace (fr_addr base =? cr_addr base) with false
      by (symmetry; apply Z.eqb_neq; intros E;
          apply (cr_addr_neq_fr_addr base); symmetry; exact E).
    rewrite Z.eqb_refl. reflexivity.
  - unfold complete_trace, fences. rewrite !filter_app.
    fold (fences (polling base frs)). rewrite fences_polling. reflexivity.
Qed.

Section CellCalls.

Variable cr_of : S -> Z.
Hypothesis cell : control_cell dev_load dev_store base cr_of.

(** X2. On a register block whose control register is a storage cell: as
    long as a call has not returned, the register holds its initial value
    before the store of step 1 and the receive-mode value (bit 9 set, bit 8
    clear) from then on.  The transmitter is enabled by the very last step
    only; a call that hangs leaves the UART receiving. *)
Theorem X2_receiving_until_return (s : S) (buf len : Z) (fuel : nat) :
  let o := exec fuel (write_packet base buf len) s [] in
  has_returned o = false ->
  cr_of (state_of o) = (if (fuel <? 2)%nat then cr_of s else rx_mode (cr_of s)) /\
  ((2 <= fuel)%nat ->
   Z.testbit (cr_of (state_of o)) 9 = true /\
   Z.testbit (cr_of (state_of o)) 8 = false).
Proof.
  cbv zeta. intros Hnot.
  assert (Hmain : cr_of (state_of (exec fuel (write_packet base buf len) s [])) =
                  (if (fuel <? 2)%nat then cr_of s else rx_mode (cr_of s))).
  { destruct cell as [Hload [Hkeep Hstore]].
    revert Hnot. rewrite exec_write_packet.
    destruct fuel as [|fuel]; [reflexivity|].
    pose proof (Hload s) as Hv.
    pose proof (Hkeep s (cr_addr base) (or_introl eq_refl)) as Hs1.
    destruct (dev_load s (cr_addr base)) as [v s1]. cbn [fst snd] in Hv, Hs1.
    subst v.
    destruct fuel as [|fuel]; [intros _; exact Hs1|].
    cbv zeta. destruct fuel as [|fuel]; [intros _; apply Hstore|].
    change (Datatypes.S (Datatypes.S (Datatypes.S fuel)) <? 2)%nat with false.
    pose proof (poll_loop_keeps_cr dev_load dev_store base cr_of cell fuel
                  (dev_store s1 (cr_addr base) (rx_mode (cr_of s)))
                  (prologue base (cr_of s))) as Hcr.
    rewrite Hstore in Hcr.
    destruct (exec fuel (poll_loop base) _ _) as [[] s3 tr3 n4|s3 tr3];
      cbn [state_of] in Hcr; [|intros _; exact Hcr].
    rewrite exec_switch_to_tx.
    destruct n4 as [|[|n4]]; [intros _; exact Hcr..|].
    pose proof (Hkeep s3 (cr_addr base) (or_introl eq_refl)) as Hs4.
    destruct (dev_load s3 (cr_addr base)) as [c s4]. cbn [snd] in Hs4.
    destruct n4 as [|n4]; [|discriminate].
    intros _. cbn [state_of]. congruence. }
  split; [exact Hmain|].
  intros Hfuel. rewrite Hmain.
  replace (fuel <? 2)%nat with false by (symmetry; apply Nat.ltb_ge; exact Hfuel).
  apply rx_mode_bits.
Qed.

(** X1. On a register block whose control register is a storage cell, two
    calls back to back that return: the log is the log of the first call
    followed by that of the second; the second call first puts the UART
    back into receive mode and ends, like the first, in transmit mode with
    the same content of the control register, which is
    [(V & ~0x300) | 0x100] for a 32-bit initial value [V]. *)
Theorem X1_second_call_same_result (s s2 : S) (buf1 len1 buf2 len2 : Z)
  (fuel left : nat) (r : unit) (tr : list access) :
  exec fuel (two_packets base buf1 len1 buf2 len2) s [] = Returned r s2 tr left ->
  exists s1 tr1 tr2 mid,
    exec fuel (write_packet base buf1 len1) s [] = Returned tt s1 tr1 mid /\
    exec mid (write_packet base buf2 len2) s1 [] = Returned tt s2 tr2 left /\
    tr = tr1 ++ tr2 /\
    nth_error tr2 1 = Some (Wr (cr_addr base) (rx_mode (cr_of s1))) /\
    cr_of s2 = cr_of s1 /\
    (is_u32 (cr_of s) ->
     cr_of s2 = Z.lor (Z.land (cr_of s) (Z.lnot 0x300)) 0x100 /\
     rx_mode (cr_of s1) = Z.lor (Z.land (cr_of s) (Z.lnot 0x300)) 0x200).
Proof.
  unfold two_packets. rewrite exec_bind.
  destruct (exec fuel (write_packet base buf1 len1) s []) as [[] s1 tr1 mid|s1 tr1]
    eqn:Hfirst; [|discriminate].
  rewrite <- (app_nil_r tr1) at 1. rewrite exec_with_prefix.
  destruct (exec mid (write_packet base buf2 len2) s1 []) as [[] s2' tr2 left'|s2' tr2]
    eqn:Hsecond; cbn [with_prefix]; [|discriminate].
  intros H. injection H as _ <- <- <-.
  destruct (returned_cell dev_load dev_store base cr_of cell _ _ _ _ _ _ _ _ Hfirst)
    as [Hcr1 _].
  destruct (returned_cell dev_load dev_store base cr_of cell _ _ _ _ _ _ _ _ Hsecond)
    as [Hcr2 [frs [fr Htr2]]].
  exists s1, tr1, tr2, mid.
  split; [reflexivity|]. split; [exact Hsecond|]. split; [reflexivity|].
  split; [rewrite Htr2; reflexivity|].
  assert (Hsame : cr_of s2' = cr_of s1).
  { rewrite Hcr2, Hcr1. apply tx_rx_idempotent. }
  split; [exact Hsame|].
  intros HV. split.
  - rewrite Hsame, Hcr1. apply tx_rx_closed_form. exact HV.
  - rewrite Hcr1. apply rx_tx_closed_form. exact HV.
Qed.

End CellCalls.

End Calls.

(** * The flag bits the routine does not look at *)

Lemma writes_mask_flags base tr : writes (mask_flags base tr) = writes tr.
Proof.
  unfold writes, mask_flags. induction tr as [|a l IH]; [reflexivity|].
  cbn [map filter]. rewrite IH. destruct a as [x v|x v|]; cbn [mask_flag];
    [destruct (x =? fr_addr base)|..]; reflexivity.
Qed.

Lemma mask_flags_snoc_flag base tr1 tr2 fr1 fr2 :
  mask_flags base tr1 = mask_flags base tr2 ->
  Z.testbit fr1 5 = Z.testbit fr2 5 ->
  mask_flags base (tr1 ++ [Rd (fr_addr base) fr1]) =
  mask_flags base (tr2 ++ [Rd (fr_addr base) fr2]).
Proof.
  intros Htr Hbit. unfold mask_flags in *. rewrite !map_app, Htr.
  cbn [map mask_flag]. rewrite Z.eqb_refl, !and32_TXFF, Hbit. reflexivity.
Qed.

Lemma mask_flags_app_same base tr1 tr2 tl :
  mask_flags base tr1 = mask_flags base tr2 ->
  mask_flags base (tr1 ++ tl) = mask_flags base (tr2 ++ tl).
Proof.
  intros Htr. unfold mask_flags in *. rewrite !map_app, Htr. reflexivity.
Qed.

Section FlagBits.

Context {S1 S2 : Type}.
Variable load1 : S1 -> Z -> Z * S1.
Variable store1 : S1 -> Z -> Z -> S1.
Variable load2 : S2 -> Z -> Z * S2.
Variable store2 : S2 -> Z -> Z -> S2.
Variable base : Z.

(** [rel] relates device states whose control registers answer alike and
    whose flag registers agree in bit 5, now and after every further access
    of the routine. *)
Variable rel : S1 -> S2 -> Prop.

Hypothesis rel_cr :
  forall s1 s2,
    rel s1 s2 ->
    fst (load1 s1 (cr_addr base)) = fst (load2 s2 (cr_addr base)) /\
    rel (snd (load1 s1 (cr_addr base))) (snd (load2 s2 (cr_addr base))).

Hypothesis rel_fr :
  forall s1 s2,
    rel s1 s2 ->
    Z.testbit (fst (load1 s1 (fr_addr base))) 5 =
      Z.testbit (fst (load2 s2 (fr_addr base))) 5 /\
    rel (snd (load1 s1 (fr_addr base))) (snd (load2 s2 (fr_addr base))).

Hypothesis rel_st :
  forall s1 s2 v,
    rel s1 s2 -> rel (store1 s1 (cr_addr base) v) (store2 s2 (cr_addr base) v).

Local Abbreviation exec1 := (exec load1 store1).
Local Abbreviation exec2 := (exec load2 store2).

Lemma poll_loop_same_progress n :
  forall s1 s2 tr1 tr2,
    rel s1 s2 ->
    mask_flags base tr1 = mask_flags base tr2 ->
    same_progress rel base (exec1 n (poll_loop base) s1 tr1)
                           (exec2 n (poll_loop base) s2 tr2).
Proof.
  induction n as [n IH] using lt_wf_ind. intros s1 s2 tr1 tr2 Hrel Htr.
  destruct n as [|n]; [split; assumption|].
  rewrite !exec_poll_loop_S.
  destruct (rel_fr s1 s2 Hrel) as [Hbit Hrel'].
  destruct (load1 s1 (fr_addr base)) as [fr1 s1'].
  destruct (load2 s2 (fr_addr base)) as [fr2 s2'].
  cbn [fst snd] in Hbit, Hrel'. cbv zeta.
  pose proof (mask_flags_snoc_flag base tr1 tr2 fr1 fr2 Htr Hbit) as Htr'.
  rewrite !fifo_has_room_bit5, Hbit.
  destruct (Z.testbit fr2 5); cbn [negb].
  - destruct n as [|n]; [split; assumption|].
    apply IH; [lia|assumption|assumption].
  - repeat split; assumption.
Qed.

Lemma switch_to_tx_same_progress n s1 s2 tr1 tr2 :
  rel s1 s2 ->
  mask_flags base tr1 = mask_flags base tr2 ->
  same_progress rel base (exec1 n (switch_to_tx base) s1 tr1)
                         (exec2 n (switch_to_tx base) s2 tr2).
Proof.
  intros Hrel Htr. rewrite !exec_switch_to_tx.
  destruct n as [|[|n]];
    [split; [exact Hrel|exact Htr]
    |split; [exact Hrel|apply mask_flags_app_same; exact Htr]|].
  destruct (rel_cr s1 s2 Hrel) as [Hv Hrel'].
  destruct (load1 s1 (cr_addr base)) as [c s1'].
  destruct (load2 s2 (cr_addr base)) as [c2 s2'].
  cbn [fst snd] in Hv, Hrel'. subst c2.
  destruct n as [|n].
  - split; [exact Hrel'|apply mask_flags_app_same; exact Htr].
  - split; [reflexivity|]. split; [apply rel_st; exact Hrel'|].
    split; [apply mask_flags_app_same; exact Htr|reflexivity].
Qed.

(** X4. The routine looks at bit 5 of the flag register and at nothing else
    of it.  On two register blocks whose control registers answer alike and
    whose flag registers agree in bit 5 on every read, two calls are equally
    far after any number of steps, return together, make the same stores,
    and have the same log once every flag value is cut down to its bit 5:
    they wait neither for the FIFO to run empty (bit 7) nor for the UART to
    stop being busy (bit 3). *)
Theorem X4_only_bit5_of_flags (s1 : S1) (s2 : S2) (buf len : Z) (fuel : nat) :
  rel s1 s2 ->
  let o1 := exec1 fuel (write_packet base buf len) s1 [] in
  let o2 := exec2 fuel (write_packet base buf len) s2 [] in
  same_progress rel base o1 o2 /\
  has_returned o1 = has_returned o2 /\
  mask_flags base (trace_of o1) = mask_flags base (trace_of o2) /\
  writes (trace_of o1) = writes (trace_of o2) /\
  length (trace_of o1) = length (trace_of o2).
Proof.
  intros Hrel. cbv zeta.
  assert (Hsame : same_progress rel base
                    (exec1 fuel (write_packet base buf len) s1 [])
                    (exec2 fuel (write_packet base buf len) s2 [])).
  { rewrite !exec_write_packet.
    destruct fuel as [|fuel]; [split; [exact Hrel|reflexivity]|].
    destruct (rel_cr s1 s2 Hrel) as [Hv Hrel1].
    destruct (load1 s1 (cr_addr base)) as [v s1'].
    destruct (load2 s2 (cr_addr base)) as [v2 s2'].
    cbn [fst snd] in Hv, Hrel1. subst v2.
    destruct fuel as [|fuel]; [split; [exact Hrel1|reflexivity]|].
    cbv zeta. pose proof (rel_st s1' s2' (rx_mode v) Hrel1) as Hrel2.
    destruct fuel as [|fuel]; [split; [exact Hrel2|reflexivity]|].
    pose proof (poll_loop_same_progress fuel _ _ (prologue base v)
                  (prologue base v) Hrel2 eq_refl) as Hloop.
    destruct (exec1 fuel (poll_loop base) _ _) as [[] t1 tr1 n1|t1 tr1];
      destruct (exec2 fuel (poll_loop base) _ _) as [[] t2 tr2 n2|t2 tr2];
      cbn [same_progress] in Hloop; try contradiction.
    - destruct Hloop as [_ [Hrel3 [Htr <-]]].
      apply switch_to_tx_same_progress; assumption.
    - exact Hloop. }
  assert (Hmask : mask_flags base (trace_of (exec1 fuel (write_packet base buf len) s1 [])) =
                  mask_flags base (trace_of (exec2 fuel (write_packet base buf len) s2 []))).
  { destruct (exec1 fuel _ s1 []), (exec2 fuel _ s2 []);
      cbn [same_progress] in Hsame; try contradiction; cbn [trace_of]; tauto. }
  split; [exact Hsame|]. split; [|split; [exact Hmask|split]].
  - destruct (exec1 fuel _ s1 []), (exec2 fuel _ s2 []);
      cbn [same_progress] in Hsame; try contradiction; reflexivity.
  - rewrite <- (writes_mask_flags base (trace_of (exec1 _ _ _ _))), Hmask.
    apply writes_mask_flags.
  - apply (f_equal (@length access)) in Hmask. unfold mask_flags in Hmask.
    rewrite !length_map in Hmask. exact Hmask.
Qed.

End FlagBits.

(** * The further statements at concrete register blocks *)

Lemma run_two_mock0 :
  exec (mock_load UART0_BASE) (mock_store UART0_BASE) 20
    (two_packets UART0_BASE buf0 len0 0 0) mock0 [] =
  Returned tt (Mock 0x101 (drains_after 3) 5) mock0_log2 0.
Proof. vm_compute. reflexivity. Qed.

Lemma X1_witness :
  exec (mock_load UART0_BASE) (mock_store UART0_BASE) 20
    (two_packets UART0_BASE buf0 len0 0 0) mock0 [] =
  Returned tt (Mock 0x101 (drains_after 3) 5) mock0_log2 0 /\
  is_u32 (mock_cr mock0) /\
  exists s1 tr1 tr2 mid,
    run_mock 20 mock0 buf0 len0 = Returned tt s1 tr1 mid /\
    run_mock mid s1 0 0 = Returned tt (Mock 0x101 (drains_after 3) 5) tr2 0 /\
    mock0_log2 = tr1 ++ tr2 /\
    nth_error tr2 1 = Some (Wr (cr_addr UART0_BASE) (rx_mode (mock_cr s1))) /\
    0x101 = mock_cr s1 /\
    0x101 = Z.lor (Z.land 0x301 (Z.lnot 0x300)) 0x100 /\
    rx_mode (mock_cr s1) = Z.lor (Z.land 0x301 (Z.lnot 0x300)) 0x200.
Proof.
  assert (H : is_u32 (mock_cr mock0)) by (unfold is_u32; cbn; lia).
  split; [exact run_two_mock0|]. split; [exact H|].
  destruct (X1_second_call_same_result (mock_load UART0_BASE)
              (mock_store UART0_BASE) UART0_BASE mock_cr
              (mock_control_cell UART0_BASE) mock0 _ buf0 len0 0 0 20 0 tt
              mock0_log2 run_two_mock0)
    as [s1 [tr1 [tr2 [mid [H1 [H2 [Hlog [Hrx [Hsame Hclosed]]]]]]]]].
  destruct (Hclosed H) as [Hc1 Hc2].
  exists s1, tr1, tr2, mid. repeat split; assumption.
Defined.

Lemma X2_witness :
  has_returned (run_mock 8 mock0 buf0 len0) = false /\
  mock_cr (state_of (run_mock 8 mock0 buf0 len0)) = rx_mode (mock_cr mock0) /\
  Z.testbit (mock_cr (state_of (run_mock 8 mock0 buf0 len0))) 9 = true /\
  Z.testbit (mock_cr (state_of (run_mock 8 mock0 buf0 len0))) 8 = false.
Proof.
  assert (H : has_returned (run_mock 8 mock0 buf0 len0) = false)
    by (vm_compute; reflexivity).
  split; [exact H|].
  destruct (X2_receiving_until_return (mock_load UART0_BASE)
              (mock_store UART0_BASE) UART0_BASE mock_cr
              (mock_control_cell UART0_BASE) mock0 buf0 len0 8 H)
    as [Hcr Hbits].
  split; [exact Hcr|]. apply Hbits. lia.
Defined.

Lemma X3_witness :
  run_mock 13 mock0 buf0 len0 = Returned tt mock0_final mock0_log 0 /\
  let p := length (flag_reads UART0_BASE mock0_log) in
  (1 <= p)%nat /\
  length mock0_log = (p + 6)%nat /\
  length (cr_reads UART0_BASE mock0_log) = 2%nat /\
  length (writes mock0_log) = 2%nat /\
  length (fences mock0_log) = 2%nat /\
  13%nat = (0 + (2 * p + 5))%nat.
Proof.
  split; [exact run_mock0|].
  exact (X3_cost_of_a_call (mock_load UART0_BASE) (mock_store UART0_BASE)
           UART0_BASE mock0 mock0_final buf0 len0 13 0 tt mock0_log run_mock0).
Defined.

Lemma alike_cr :
  forall m1 m2,
    alike m1 m2 ->
    fst (mock_load UART0_BASE m1 (cr_addr UART0_BASE)) =
      fst (mock_load UART0_BASE m2 (cr_addr UART0_BASE)) /\
    alike (snd (mock_load UART0_BASE m1 (cr_addr UART0_BASE)))
          (snd (mock_load UART0_BASE m2 (cr_addr UART0_BASE))).
Proof. intros m1 m2 H. split; [exact (proj1 H)|exact H]. Qed.

Lemma alike_fr :
  forall m1 m2,
    alike m1 m2 ->
    Z.testbit (fst (mock_load UART0_BASE m1 (fr_addr UART0_BASE))) 5 =
      Z.testbit (fst (mock_load UART0_BASE m2 (fr_addr UART0_BASE))) 5 /\
    alike (snd (mock_load UART0_BASE m1 (fr_addr UART0_BASE)))
          (snd (mock_load UART0_BASE m2 (fr_addr UART0_BASE))).
Proof.
  intros m1 m2 [Hcr [Hpolls [Hf1 Hf2]]].
  change (mock_load UART0_BASE m1 (fr_addr UART0_BASE))
    with (mock_fr m1 (mock_polls m1),
          Mock (mock_cr m1) (mock_fr m1) (Datatypes.S (mock_polls m1))).
  change (mock_load UART0_BASE m2 (fr_addr UART0_BASE))
    with (mock_fr m2 (mock_polls m2),
          Mock (mock_cr m2) (mock_fr m2) (Datatypes.S (mock_polls m2))).
  cbn [fst snd]. split.
  - rewrite Hf1, Hf2, Hpolls. unfold drains_after, busy_then_idle.
    destruct (mock_polls m2 <? 3)%nat; reflexivity.
  - unfold alike. cbn [mock_cr mock_fr mock_polls]. rewrite Hpolls. tauto.
Qed.

Lemma alike_st :
  forall m1 m2 v,
    alike m1 m2 ->
    alike (mock_store UART0_BASE m1 (cr_addr UART0_BASE) v)
          (mock_store UART0_BASE m2 (cr_addr UART0_BASE) v).
Proof.
  intros m1 m2 v [_ [Hpolls [Hf1 Hf2]]].
  unfold alike. cbn. tauto.
Qed.

Lemma X4_witness :
  alike mock0 mock1 /\
  let o1 := run_mock 13 mock0 buf0 len0 in
  let o2 := run_mock 13 mock1 buf0 len0 in
  same_progress alike UART0_BASE o1 o2 /\
  has_returned o1 = has_returned o2 /\
  mask_flags UART0_BASE (trace_of o1) = mask_flags UART0_BASE (trace_of o2) /\
  writes (trace_of o1) = writes (trace_of o2) /\
  length (trace_of o1) = length (trace_of o2).
Proof.
  assert (H : alike mock0 mock1) by (repeat split).
  split; [exact H|].
  exact (X4_only_bit5_of_flags (mock_load UART0_BASE) (mock_store UART0_BASE)
           (mock_load UART0_BASE) (mock_store UART0_BASE) UART0_BASE alike
           alike_cr alike_fr alike_st mock0 mock1 buf0 len0 13 H).
Defined.

(** The two logs of [X4_witness] do differ: the busy mock answers 0x28 where
    the other answers 0x20, and 0 where the other answers 0x80. *)
Example mock1_log_differs :
  trace_of (run_mock 13 mock1 buf0 len0) <> trace_of (run_mock 13 mock0 buf0 len0) /\
  has_returned (run_mock 13 mock1 buf0 len0) = true.
Proof. split; [vm_compute; discriminate|vm_compute; reflexivity]. Qed.
